(** * go-nvml: the property-dispatch layer of [device.go]

    A shallow embedding of [device.go] (package [nvml]): the two property
    registries, the integer and text dispatchers, [NewDevice] and the device
    enumeration, followed by the properties the specification states
    about them.

    The Go code calls into NVIDIA's management library through cgo.  The
    library is not part of the repository, so it appears here as a
    [NativeLayer]: a record of step functions over an abstract [World].
    Every Go function that may call into the library is a computation in the
    monad [M], which threads the library's world together with a log of the
    native calls made so far, and which can end the process ([log.Fatal]).

    Target: 64-bit Go ([uint] and [int] are 64 bits wide, [C.uint] 32). *)

From Stdlib Require Import ZArith Lia List String Ascii.
From Stdlib.Strings Require Import Byte.
From stdpp Require Import base option list strings gmap.

Local Open Scope string_scope.
Local Open Scope list_scope.
Local Open Scope Z_scope.

(** ** Machine integers and conversions *)

Module Conv.

(** Value stored in a [C.uint] slot. *)
Definition C_uint (z : Z) : Z := z mod 2 ^ 32.

(** Go's [uint(x)] and [uint64(x)] on a 64-bit target. *)
Definition go_uint (z : Z) : Z := z mod 2 ^ 64.

(** Go's [int(x)]: the low 64 bits read as two's complement. *)
Definition go_int (z : Z) : Z :=
  let m := z mod 2 ^ 64 in
  if m <? 2 ^ 63 then m else m - 2 ^ 64.

End Conv.
Import Conv.

(** ** The native library, as seen from Go *)

(** [nvmlReturn_t]; [NVML_SUCCESS] is 0 in [nvml.h]. *)
Definition nvmlReturn_t := Z.
Definition NVML_SUCCESS : nvmlReturn_t := 0.

(** Exit statuses of [stdlib.h], used by the bridge helpers. *)
Definition EXIT_SUCCESS : Z := 0.
Definition EXIT_FAILURE : Z := 1.

(** [nvmlDevice_t] is an opaque handle; only its identity matters. *)
Definition nvmlDevice_t := Z.

(** The native accessors the integer registry refers to
    (type [C.getintProperty]). *)
Inductive getintProperty : Set :=
| nvmlDeviceGetIndex
| nvmlDeviceGetMinorNumber
| nvmlDeviceGetInforomConfigurationChecksum
| nvmlDeviceGetMaxPcieLinkGeneration
| nvmlDeviceGetMaxPcieLinkWidth
| nvmlDeviceGetCurrPcieLinkGeneration
| nvmlDeviceGetCurrPcieLinkWidth
| nvmlDeviceGetPcieReplayCounter
| nvmlDeviceGetFanSpeed
| nvmlDeviceGetPowerManagementLimit
| nvmlDeviceGetPowerManagementDefaultLimit
| nvmlDeviceGetPowerUsage
| nvmlDeviceGetEnforcedPowerLimit
| nvmlDeviceGetBoardId
| nvmlDeviceGetMultiGpuBoard.

(** The native accessors the text registry refers to
    (type [C.gettextProperty]). *)
Inductive gettextProperty : Set :=
| nvmlDeviceGetName
| nvmlDeviceGetSerial
| nvmlDeviceGetUUID
| nvmlDeviceGetInforomImageVersion
| nvmlDeviceGetVbiosVersion.

(** One call into the library, with the arguments Go passes. *)
Inductive NativeCall : Type :=
| CallInt (f : getintProperty) (dev : nvmlDevice_t)
| CallText (f : gettextProperty) (dev : nvmlDevice_t) (len : Z)
| CallGetCount
| CallGetHandleByIndex (i : Z)
| CallGetPowerState (dev : nvmlDevice_t)
| CallGetTemperature (dev : nvmlDevice_t) (sensor : Z)
| CallGetDecoderUtilization (dev : nvmlDevice_t)
| CallGetEncoderUtilization (dev : nvmlDevice_t)
| CallGetUtilizationRates (dev : nvmlDevice_t)
| CallGetMemoryInfo (dev : nvmlDevice_t).

(** A logged call: what was called and the status it came back with. *)
Record Event : Type := mkEvent { ev_call : NativeCall; ev_status : nvmlReturn_t }.

(** The library.  Each function maps the library's world to a status, the
    contents of the output slot(s) after the call, and the next world.
    The buffer sizes and the sensor id are the constants of [nvml.h]. *)
Record NativeLayer : Type := mkNativeLayer {
  World : Type;
  NVML_DEVICE_NAME_BUFFER_SIZE : Z;
  NVML_DEVICE_SERIAL_BUFFER_SIZE : Z;
  NVML_DEVICE_UUID_BUFFER_SIZE : Z;
  NVML_DEVICE_INFOROM_VERSION_BUFFER_SIZE : Z;
  NVML_DEVICE_VBIOS_VERSION_BUFFER_SIZE : Z;
  NVML_TEMPERATURE_GPU : Z;
  native_int : getintProperty -> nvmlDevice_t -> World -> nvmlReturn_t * Z * World;
  native_text : gettextProperty -> nvmlDevice_t -> Z -> World ->
                nvmlReturn_t * list byte * World;
  native_GetCount : World -> nvmlReturn_t * Z * World;
  native_GetHandleByIndex : Z -> World -> nvmlReturn_t * nvmlDevice_t * World;
  native_GetPowerState : nvmlDevice_t -> World -> nvmlReturn_t * Z * World;
  native_GetTemperature : nvmlDevice_t -> Z -> World -> nvmlReturn_t * Z * World;
  native_GetDecoderUtilization : nvmlDevice_t -> World -> nvmlReturn_t * (Z * Z) * World;
  native_GetEncoderUtilization : nvmlDevice_t -> World -> nvmlReturn_t * (Z * Z) * World;
  native_GetUtilizationRates : nvmlDevice_t -> World -> nvmlReturn_t * (Z * Z) * World;
  native_GetMemoryInfo : nvmlDevice_t -> World -> nvmlReturn_t * (Z * Z * Z) * World;
  (** [nvmlErrorString]; [None] is the null pointer. *)
  nvmlErrorString : nvmlReturn_t -> option string
}.

(** ** Go values *)

(** Go's [error]: [None] is [nil], [Some msg] an error with that message. *)
Definition error := option string.
Definition errors_New (msg : string) : error := Some msg.

(** [len(s)] of a Go string. *)
Definition len (s : string) : Z := Z.of_nat (String.length s).

Record Device : Type := mkDevice {
  nvmldevice : nvmlDevice_t;
  index : Z;
  pcibus : string;
  name : string;
  uuid : string
}.

Record cIntPropFunc : Type := mkIntPropFunc { ipf_f : getintProperty }.

Record cTextPropFunc : Type := mkTextPropFunc {
  tpf_f : gettextProperty;
  tpf_length : Z
}.

Record NVMLMemory : Type := mkNVMLMemory { Free : Z; Total : Z; Used : Z }.

(** ** The monad of the layer *)

(** What a call of a Go function ends in: it returns, the process is
    terminated by [log.Fatal], or the Go runtime panics. *)
Inductive Outcome (A : Type) : Type :=
| Returned (a : A)
| Fatal (msg : string)
| Panicked (msg : string).
Arguments Returned {A} a.
Arguments Fatal {A} msg.
Arguments Panicked {A} msg.

Section Layer.

Variable L : NativeLayer.

(** The library's world and the log of native calls, oldest first. *)
Record St : Type := mkSt { world : World L; calls : list Event }.

Definition M (A : Type) : Type := St -> Outcome A * St.

Definition ret {A} (a : A) : M A := fun s => (Returned a, s).

Definition bind {A B} (m : M A) (k : A -> M B) : M B :=
  fun s =>
    match m s with
    | (Returned a, s') => k a s'
    | (Fatal msg, s') => (Fatal msg, s')
    | (Panicked msg, s') => (Panicked msg, s')
    end.

(** [log.Fatal(err)]: print and exit. *)
Definition log_Fatal {A} (msg : string) : M A := fun s => (Fatal msg, s).

(** A run-time panic of the Go runtime. *)
Definition panic {A} (msg : string) : M A := fun s => (Panicked msg, s).

(** One native call: run it on the world and log it with its status. *)
Definition invoke {A} (c : NativeCall)
           (run : World L -> nvmlReturn_t * A * World L) : M (nvmlReturn_t * A) :=
  fun s =>
    let '(st, a, w') := run (world s) in
    (Returned (st, a), mkSt w' (calls s ++ [mkEvent c st])).

End Layer.

Arguments world {L} s.
Arguments calls {L} s.
Arguments mkSt {L} world calls.
Arguments ret {L A} a.
Arguments bind {L A B} m k.
Arguments log_Fatal {L A} msg.
Arguments panic {L A} msg.
Arguments invoke {L A} c run.

Notation "x <- m ;; k" := (bind m (fun x => k))
  (at level 20, m at level 99, k at level 200, only parsing).
Notation "' p <- m ;; k" := (bind m (fun x => match x with p => k end))
  (at level 20, p pattern, m at level 99, k at level 200, only parsing).

(** ** Text decoding *)

Module Text.

(** The bytes of [bs] before its first NUL. *)
Fixpoint until_nul (bs : list byte) : list byte :=
  match bs with
  | [] => []
  | b :: rest => if Byte.eqb b x00 then [] else b :: until_nul rest
  end.

(** Modelled from the spec: [strndup(buf, n)], a helper of the package
    that is defined outside [device.go].  Specification 4.4: the decode
    is "bounded by the declared length", it "must stop at the first
    terminator and not read past the declared length".  The buffer is
    given by the bytes the native accessor left in it. *)
Definition strndup (buf : list byte) (n : Z) : string :=
  string_of_list_byte (until_nul (firstn (Z.to_nat n) buf)).

End Text.
Import Text.

(** ** device.go *)

Section Program.

Variable L : NativeLayer.

Definition with_uuid (d : Device) (v : string) : Device :=
  mkDevice (nvmldevice d) (index d) (pcibus d) (name d) v.
Definition with_name (d : Device) (v : string) : Device :=
  mkDevice (nvmldevice d) (index d) (pcibus d) v (uuid d).
Definition with_index (d : Device) (v : Z) : Device :=
  mkDevice (nvmldevice d) v (pcibus d) (name d) (uuid d).

(** *** Bridge helpers *)

(** Modelled from the spec: [bridge_get_int_property] of [nvmlbridge.h],
    which is outside [device.go].  Specification 4.3 and 4.1: it "invokes
    the resolved accessor with the device's handle and a fixed-width
    output slot" and reports in the "process exit status" convention. *)
Definition bridge_get_int_property (f : getintProperty) (dev : nvmlDevice_t)
  : M L (Z * Z) :=
  '(st, v) <- invoke (CallInt f dev) (native_int L f dev);;
  ret (if st =? NVML_SUCCESS then EXIT_SUCCESS else EXIT_FAILURE, C_uint v).

(** Modelled from the spec: [bridge_get_text_property] of [nvmlbridge.h],
    which is outside [device.go].  Specification 4.4 and 4.1: it "invokes
    the resolved accessor with the device handle, buffer pointer, and
    declared length" and reports in the "process exit status"
    convention.  The second component is the buffer after the call. *)
Definition bridge_get_text_property (f : gettextProperty) (dev : nvmlDevice_t)
           (length : Z) : M L (Z * list byte) :=
  '(st, buf) <- invoke (CallText f dev length) (native_text L f dev length);;
  ret (if st =? NVML_SUCCESS then EXIT_SUCCESS else EXIT_FAILURE, buf).

(** *** Direct queries *)

Definition PowerState (gpu : Device) : M L (Z * error) :=
  '(result, pstate) <- invoke (CallGetPowerState (nvmldevice gpu))
                              (native_GetPowerState L (nvmldevice gpu));;
  if negb (result =? NVML_SUCCESS)
  then ret (-1, errors_New "GetPowerState returned error")
  else ret (go_int (C_uint pstate), None).

Definition Temp (gpu : Device) : M L (Z * error) :=
  '(result, ctemp) <- invoke (CallGetTemperature (nvmldevice gpu) (NVML_TEMPERATURE_GPU L))
                             (native_GetTemperature L (nvmldevice gpu) (NVML_TEMPERATURE_GPU L));;
  if negb (result =? NVML_SUCCESS)
  then ret (0, errors_New "GetPowerState returned error")
  else ret (go_uint (C_uint ctemp), None).

(** *** The integer registry and its dispatcher *)

Definition intpropfunctions : gmap string cIntPropFunc :=
  list_to_map
    [ ("Index", mkIntPropFunc nvmlDeviceGetIndex);
      ("MinorNumber", mkIntPropFunc nvmlDeviceGetMinorNumber);
      ("InforomConfigurationChecksum", mkIntPropFunc nvmlDeviceGetInforomConfigurationChecksum);
      ("MaxPCIeLinkGeneration", mkIntPropFunc nvmlDeviceGetMaxPcieLinkGeneration);
      ("MaxPCIeLinkWidth", mkIntPropFunc nvmlDeviceGetMaxPcieLinkWidth);
      ("CurrPCIeLinkGeneration", mkIntPropFunc nvmlDeviceGetCurrPcieLinkGeneration);
      ("CurrPCIeLinkWidth", mkIntPropFunc nvmlDeviceGetCurrPcieLinkWidth);
      ("PCIeReplayCounter", mkIntPropFunc nvmlDeviceGetPcieReplayCounter);
      ("FanSpeed", mkIntPropFunc nvmlDeviceGetFanSpeed);
      ("PowerManagementLimit", mkIntPropFunc nvmlDeviceGetPowerManagementLimit);
      ("PowerManagementDefaultLimit", mkIntPropFunc nvmlDeviceGetPowerManagementDefaultLimit);
      ("PowerUsage", mkIntPropFunc nvmlDeviceGetPowerUsage);
      ("EnforcedPowerLimit", mkIntPropFunc nvmlDeviceGetEnforcedPowerLimit);
      ("BoardId", mkIntPropFunc nvmlDeviceGetBoardId);
      ("MultiGpuBoard", mkIntPropFunc nvmlDeviceGetMultiGpuBoard) ].

Definition intProperty (gpu : Device) (property : string) : M L (Z * error) :=
  match intpropfunctions !! property with
  | None => ret (0, errors_New "property not found")
  | Some ipf =>
      '(result, cuintproperty) <-
         bridge_get_int_property (ipf_f ipf) (nvmldevice gpu);;
      if negb (result =? EXIT_SUCCESS)
      then ret (0, errors_New "getintProperty bridge returned error")
      else ret (go_uint cuintproperty, None)
  end.

Definition Index (gpu : Device) := intProperty gpu "Index".
Definition MinorNumber (gpu : Device) := intProperty gpu "MinorNumber".
Definition InforomConfigurationChecksum (gpu : Device) :=
  intProperty gpu "InforomConfigurationChecksum".
Definition MaxPCIeLinkGeneration (gpu : Device) := intProperty gpu "MaxPCIeLinkGeneration".
Definition MaxPCIeLinkWidth (gpu : Device) := intProperty gpu "MaxPCIeLinkWidth".
Definition CurrPCIeLinkGeneration (gpu : Device) := intProperty gpu "CurrPCIeLinkGeneration".
Definition CurrPCIeLinkWidth (gpu : Device) := intProperty gpu "CurrPCIeLinkWidth".
Definition PCIeReplayCounter (gpu : Device) := intProperty gpu "PCIeReplayCounter".
Definition FanSpeed (gpu : Device) := intProperty gpu "FanSpeed".
Definition PowerManagementLimit (gpu : Device) := intProperty gpu "PowerManagementLimit".
Definition PowerManagementDefaultLimit (gpu : Device) :=
  intProperty gpu "PowerManagementDefaultLimit".
Definition PowerUsage (gpu : Device) := intProperty gpu "PowerUsage".
Definition EnforcedPowerLimit (gpu : Device) := intProperty gpu "EnforcedPowerLimit".
Definition BoardId (gpu : Device) := intProperty gpu "BoardId".

(** *** Multi-valued queries *)

Definition GetDecoderUtilization (gpu : Device) : M L (Z * Z * error) :=
  '(result, (ctemp, ctemp2)) <-
     invoke (CallGetDecoderUtilization (nvmldevice gpu))
            (native_GetDecoderUtilization L (nvmldevice gpu));;
  if negb (result =? NVML_SUCCESS)
  then ret (0, 0, errors_New "GetDecoderUtilization returned error")
  else ret (go_uint (C_uint ctemp), go_uint (C_uint ctemp2), None).

Definition GetEncoderUtilization (gpu : Device) : M L (Z * Z * error) :=
  '(result, (ctemp, ctemp2)) <-
     invoke (CallGetEncoderUtilization (nvmldevice gpu))
            (native_GetEncoderUtilization L (nvmldevice gpu));;
  if negb (result =? NVML_SUCCESS)
  then ret (0, 0, errors_New "GetEncoderUtilization returned error")
  else ret (go_uint (C_uint ctemp), go_uint (C_uint ctemp2), None).

Definition GetUtilizationRates (gpu : Device) : M L (Z * Z * error) :=
  '(result, (gpu_, memory)) <-
     invoke (CallGetUtilizationRates (nvmldevice gpu))
            (native_GetUtilizationRates L (nvmldevice gpu));;
  if negb (result =? NVML_SUCCESS)
  then ret (0, 0, errors_New "GetUtilizationRates returned error")
  else ret (go_uint (C_uint gpu_), go_uint (C_uint memory), None).

Definition MultiGpuBoard (gpu : Device) : M L (bool * error) :=
  '(p, err) <- intProperty gpu "MultiGpuBoard";;
  if go_int p =? 0 then ret (true, err) else ret (false, err).

(** *** The text registry and its dispatcher *)

Definition textpropfunctions : gmap string cTextPropFunc :=
  list_to_map
    [ ("Name", mkTextPropFunc nvmlDeviceGetName (C_uint (NVML_DEVICE_NAME_BUFFER_SIZE L)));
      ("Serial", mkTextPropFunc nvmlDeviceGetSerial (C_uint (NVML_DEVICE_SERIAL_BUFFER_SIZE L)));
      ("UUID", mkTextPropFunc nvmlDeviceGetUUID (C_uint (NVML_DEVICE_UUID_BUFFER_SIZE L)));
      ("InforomImageVersion",
        mkTextPropFunc nvmlDeviceGetInforomImageVersion
                       (C_uint (NVML_DEVICE_INFOROM_VERSION_BUFFER_SIZE L)));
      ("VbiosVersion",
        mkTextPropFunc nvmlDeviceGetVbiosVersion
                       (C_uint (NVML_DEVICE_VBIOS_VERSION_BUFFER_SIZE L))) ].

(** The buffer of [genCStringBuffer] lives only for the duration of the
    call ([defer C.free]); what the dispatcher sees of it is the contents
    the bridge reports. *)
Definition textProperty (gpu : Device) (property : string) : M L (string * error) :=
  let propvalue := "" in
  match textpropfunctions !! property with
  | None => ret ("", errors_New "property not found")
  | Some tpf =>
      '(result, buf) <-
         bridge_get_text_property (tpf_f tpf) (nvmldevice gpu) (tpf_length tpf);;
      if negb (result =? EXIT_SUCCESS)
      then ret (propvalue, errors_New "gettextProperty bridge returned error")
      else
        let propvalue := strndup buf (go_uint (tpf_length tpf)) in
        if len propvalue >? 0
        then ret (propvalue, None)
        else ret ("", errors_New "textProperty returned empty string")
  end.

Definition InforomImageVersion (gpu : Device) := textProperty gpu "InforomImageVersion".
Definition VbiosVersion (gpu : Device) := textProperty gpu "VbiosVersion".
Definition Name (gpu : Device) := textProperty gpu "Name".
Definition UUID (gpu : Device) := textProperty gpu "UUID".
Definition Serial (gpu : Device) := textProperty gpu "Serial".

(** *** Memory *)

Definition MemoryInfo (gpu : Device) : M L (NVMLMemory * error) :=
  let meminfo := mkNVMLMemory 0 0 0 in
  '(result, (free, total, used)) <-
     invoke (CallGetMemoryInfo (nvmldevice gpu)) (native_GetMemoryInfo L (nvmldevice gpu));;
  if negb (result =? NVML_SUCCESS)
  then ret (meminfo, errors_New "GetPowerState returned error")
  else ret (mkNVMLMemory (go_uint free) (go_uint total) (go_uint used), None).

(** *** The status translator *)

Definition Error (gpu : Device) (cerror : nvmlReturn_t) : error :=
  if cerror =? NVML_SUCCESS then None
  else
    match nvmlErrorString L cerror with
    | None => errors_New "Error not found in nvml.h"
    | Some cerrorstring => errors_New cerrorstring
    end.

(** *** Construction *)

Definition NewDevice (cdevice : nvmlDevice_t) : M L (option Device * error) :=
  let device := mkDevice cdevice 0 "" "" "" in
  '(uuid_, err) <- UUID device;;
  match err with
  | Some _ => ret (None, errors_New "Cannot retrieve UUID property")
  | None =>
      let device := with_uuid device uuid_ in
      '(name_, err) <- Name device;;
      match err with
      | Some _ => ret (None, errors_New "Cannot retrieve Name property")
      | None =>
          let device := with_name device name_ in
          '(index_, err) <- Index device;;
          match err with
          | Some _ => ret (None, errors_New "Cannot retrieve Index property")
          | None =>
              let device := with_index device index_ in
              ret (Some device, None)
          end
      end
  end.

(** *** Enumeration *)

Definition nvmlDeviceGetCount : M L (Z * error) :=
  '(result, count) <- invoke CallGetCount (native_GetCount L);;
  if negb (result =? NVML_SUCCESS)
  then ret (-1, errors_New "nvmlDeviceGetCount failed")
  else ret (go_int (C_uint count), None).

(** The [for i := 0; i < device_count; i++] loop of [getAllDevices], with
    [n] iterations left.  The error component is set when the body
    returned from the function. *)
Fixpoint getAllDevices_for (n : nat) (i : Z) (devices : list nvmlDevice_t)
  : M L (list nvmlDevice_t * error) :=
  match n with
  | O => ret (devices, None)
  | S n' =>
      '(result, device) <-
         invoke (CallGetHandleByIndex (C_uint i)) (native_GetHandleByIndex L (C_uint i));;
      if negb (result =? NVML_SUCCESS)
      then ret (devices, errors_New "nvmlDeviceGetHandleByIndex returns error")
      else getAllDevices_for n' (i + 1) (devices ++ [device])
  end.

Definition getAllDevices : M L (list nvmlDevice_t * error) :=
  '(device_count, err) <- nvmlDeviceGetCount;;
  _ <- match err with
       | Some msg => log_Fatal msg
       | None => ret tt
       end;;
  '(devices, returned) <- getAllDevices_for (Z.to_nat device_count) 0 [];;
  match returned with
  | Some e => ret (devices, Some e)
  | None =>
      if Z.of_nat (length devices) =? 0
      then ret (devices, errors_New "No devices found")
      else ret (devices, None)
  end.

(** The [for _, cdevice := range cdevices] loop of [GetAllGPUs]. *)
Fixpoint GetAllGPUs_range (cdevices : list nvmlDevice_t) (devices : list Device)
  : M L (list Device) :=
  match cdevices with
  | [] => ret devices
  | cdevice :: rest =>
      '(device, err) <- NewDevice cdevice;;
      match err with
      | Some _ => ret devices
      | None =>
          match device with
          | None => panic "invalid memory address or nil pointer dereference"
          | Some d => GetAllGPUs_range rest (devices ++ [d])
          end
      end
  end.

Definition GetAllGPUs : M L (list Device * error) :=
  let devices := [] in
  '(cdevices, err) <- getAllDevices;;
  match err with
  | Some e => ret (devices, Some e)
  | None =>
      devices <- GetAllGPUs_range cdevices devices;;
      ret (devices, None)
  end.

End Program.

(** ** Stub libraries

    A scripted native layer for concrete runs.  The world is the number of
    native calls made so far, and every answer may depend on it. *)

Module Stub.

Record Script : Type := mkScript {
  on_int : nat -> getintProperty -> nvmlDevice_t -> nvmlReturn_t * Z;
  on_text : nat -> gettextProperty -> nvmlDevice_t -> nvmlReturn_t * list byte;
  on_count : nat -> nvmlReturn_t * Z;
  on_handle : nat -> Z -> nvmlReturn_t * nvmlDevice_t;
  on_error_string : nvmlReturn_t -> option string
}.

(** The constants are those of [nvml.h]. *)
Definition layer (sc : Script) : NativeLayer :=
  {| World := nat;
     NVML_DEVICE_NAME_BUFFER_SIZE := 64;
     NVML_DEVICE_SERIAL_BUFFER_SIZE := 30;
     NVML_DEVICE_UUID_BUFFER_SIZE := 80;
     NVML_DEVICE_INFOROM_VERSION_BUFFER_SIZE := 16;
     NVML_DEVICE_VBIOS_VERSION_BUFFER_SIZE := 32;
     NVML_TEMPERATURE_GPU := 0;
     native_int := fun f dev w => (on_int sc w f dev, S w);
     native_text := fun f dev _ w => (on_text sc w f dev, S w);
     native_GetCount := fun w => (on_count sc w, S w);
     native_GetHandleByIndex := fun i w => (on_handle sc w i, S w);
     native_GetPowerState := fun _ w => (NVML_SUCCESS, 0, S w);
     native_GetTemperature := fun _ _ w => (NVML_SUCCESS, 40, S w);
     native_GetDecoderUtilization := fun _ w => (NVML_SUCCESS, (0, 0), S w);
     native_GetEncoderUtilization := fun _ w => (NVML_SUCCESS, (0, 0), S w);
     native_GetUtilizationRates := fun _ w => (NVML_SUCCESS, (0, 0), S w);
     native_GetMemoryInfo := fun _ w => (NVML_SUCCESS, (100, 150, 50), S w);
     nvmlErrorString := on_error_string sc |}.

Definition bytes (s : string) : list byte := list_byte_of_string s.

Definition NVML_ERROR_UNKNOWN : nvmlReturn_t := 999.

Definition error_string (st : nvmlReturn_t) : option string :=
  if st =? NVML_ERROR_UNKNOWN then Some "Unknown Error" else None.

(** Three healthy boards with handles 100, 101, 102. *)
Definition healthy : Script :=
  {| on_int := fun _ f dev =>
       match f with
       | nvmlDeviceGetIndex => (NVML_SUCCESS, dev - 100)
       | _ => (NVML_SUCCESS, 7)
       end;
     on_text := fun _ f dev =>
       match f with
       | nvmlDeviceGetUUID =>
           (NVML_SUCCESS, (bytes "GPU-0" ++ [x00; x58])%list)
       | _ => (NVML_SUCCESS, (bytes "Tesla K40m" ++ [x00])%list)
       end;
     on_count := fun _ => (NVML_SUCCESS, 3);
     on_handle := fun _ i => (NVML_SUCCESS, 100 + i);
     on_error_string := error_string |}.

(** The product name reads differently from the fourth native call on. *)
Definition renamed : Script :=
  {| on_int := on_int healthy;
     on_text := fun w f dev =>
       match f with
       | nvmlDeviceGetName =>
           if (w <? 3)%nat then (NVML_SUCCESS, (bytes "Tesla K40m" ++ [x00])%list)
           else (NVML_SUCCESS, (bytes "Tesla K80" ++ [x00])%list)
       | _ => on_text healthy w f dev
       end;
     on_count := on_count healthy;
     on_handle := on_handle healthy;
     on_error_string := error_string |}.

(** Every accessor fails with [NVML_ERROR_UNKNOWN]. *)
Definition broken : Script :=
  {| on_int := fun _ _ _ => (NVML_ERROR_UNKNOWN, 5);
     on_text := fun _ _ _ => (NVML_ERROR_UNKNOWN, bytes "junk");
     on_count := on_count healthy;
     on_handle := on_handle healthy;
     on_error_string := error_string |}.

(** The handle lookup for index 1 fails. *)
Definition lookup1_fails : Script :=
  {| on_int := on_int healthy;
     on_text := on_text healthy;
     on_count := on_count healthy;
     on_handle := fun _ i =>
       if i =? 1 then (NVML_ERROR_UNKNOWN, 0) else (NVML_SUCCESS, 100 + i);
     on_error_string := error_string |}.

(** The board with handle 101 does not report its name. *)
Definition nameless101 : Script :=
  {| on_int := on_int healthy;
     on_text := fun w f dev =>
       match f with
       | nvmlDeviceGetName =>
           if dev =? 101 then (NVML_ERROR_UNKNOWN, []) else on_text healthy w f dev
       | _ => on_text healthy w f dev
       end;
     on_count := on_count healthy;
     on_handle := on_handle healthy;
     on_error_string := error_string |}.

(** The count query fails. *)
Definition countless : Script :=
  {| on_int := on_int healthy;
     on_text := on_text healthy;
     on_count := fun _ => (NVML_ERROR_UNKNOWN, 0);
     on_handle := on_handle healthy;
     on_error_string := error_string |}.

(** A host without boards. *)
Definition empty_host : Script :=
  {| on_int := on_int healthy;
     on_text := on_text healthy;
     on_count := fun _ => (NVML_SUCCESS, 0);
     on_handle := on_handle healthy;
     on_error_string := error_string |}.

(** Text accessors fill the whole buffer, and more, without a NUL. *)
Definition unterminated : Script :=
  {| on_int := on_int healthy;
     on_text := fun _ _ _ => (NVML_SUCCESS, repeat x41 100);
     on_count := on_count healthy;
     on_handle := on_handle healthy;
     on_error_string := error_string |}.

(** Text accessors succeed and terminate the buffer at once. *)
Definition blank : Script :=
  {| on_int := on_int healthy;
     on_text := fun _ _ _ => (NVML_SUCCESS, x00 :: bytes "stale");
     on_count := on_count healthy;
     on_handle := on_handle healthy;
     on_error_string := error_string |}.

(** A library that reports load: the healthy boards, with utilization
    figures that tell the two output slots apart. *)
Definition busy : NativeLayer :=
  {| World := nat;
     NVML_DEVICE_NAME_BUFFER_SIZE := 64;
     NVML_DEVICE_SERIAL_BUFFER_SIZE := 30;
     NVML_DEVICE_UUID_BUFFER_SIZE := 80;
     NVML_DEVICE_INFOROM_VERSION_BUFFER_SIZE := 16;
     NVML_DEVICE_VBIOS_VERSION_BUFFER_SIZE := 32;
     NVML_TEMPERATURE_GPU := 0;
     native_int := fun f dev w => (on_int healthy w f dev, S w);
     native_text := fun f dev _ w => (on_text healthy w f dev, S w);
     native_GetCount := fun w => (on_count healthy w, S w);
     native_GetHandleByIndex := fun i w => (on_handle healthy w i, S w);
     native_GetPowerState := fun _ w => (NVML_SUCCESS, 8, S w);
     native_GetTemperature := fun _ _ w => (NVML_SUCCESS, 61, S w);
     native_GetDecoderUtilization := fun _ w => (NVML_SUCCESS, (35, 167000), S w);
     native_GetEncoderUtilization := fun _ w => (NVML_ERROR_UNKNOWN, (0, 0), S w);
     native_GetUtilizationRates := fun _ w => (NVML_SUCCESS, (97, 42), S w);
     native_GetMemoryInfo := fun _ w => (NVML_SUCCESS, (100, 150, 50), S w);
     nvmlErrorString := error_string |}.

(** Before the first native call, with an empty log. *)
Definition start (sc : Script) : St (layer sc) := mkSt (0%nat : World (layer sc)) [].

Definition board (h : nvmlDevice_t) : Device := mkDevice h 0 "" "" "".

End Stub.

(** ** Vocabulary of the statements *)

Section Vocabulary.

Variable L : NativeLayer.

(** The native calls [m] makes when started in [s]. *)
Definition new_calls {A} (m : M L A) (s : St L) : list Event :=
  drop (length (calls s)) (calls (snd (m s))).

(** [m] comes back to its caller from every state. *)
Definition returns {A} (m : M L A) : Prop :=
  forall s, exists a s', m s = (Returned a, s').

Definition is_handle_lookup (c : NativeCall) : bool :=
  match c with
  | CallGetHandleByIndex _ => true
  | _ => false
  end.

(** The three native calls of [NewDevice], in program order. *)
Definition uuid_call (cdevice : nvmlDevice_t) : NativeCall :=
  CallText nvmlDeviceGetUUID cdevice (C_uint (NVML_DEVICE_UUID_BUFFER_SIZE L)).
Definition name_call (cdevice : nvmlDevice_t) : NativeCall :=
  CallText nvmlDeviceGetName cdevice (C_uint (NVML_DEVICE_NAME_BUFFER_SIZE L)).
Definition index_call (cdevice : nvmlDevice_t) : NativeCall := CallInt nvmlDeviceGetIndex cdevice.

(** How a run of [NewDevice] can end. *)
Inductive NewDevice_run (cdevice : nvmlDevice_t) (s : St L)
  : option Device * error -> St L -> Prop :=
| run_uuid_fails v e s1 :
    UUID L (mkDevice cdevice 0 "" "" "") s = (Returned (v, Some e), s1) ->
    NewDevice_run cdevice s (None, errors_New "Cannot retrieve UUID property") s1
| run_name_fails u s1 v e s2 :
    UUID L (mkDevice cdevice 0 "" "" "") s = (Returned (u, None), s1) ->
    Name L (mkDevice cdevice 0 "" "" u) s1 = (Returned (v, Some e), s2) ->
    NewDevice_run cdevice s (None, errors_New "Cannot retrieve Name property") s2
| run_index_fails u s1 n s2 v e s3 :
    UUID L (mkDevice cdevice 0 "" "" "") s = (Returned (u, None), s1) ->
    Name L (mkDevice cdevice 0 "" "" u) s1 = (Returned (n, None), s2) ->
    Index L (mkDevice cdevice 0 "" n u) s2 = (Returned (v, Some e), s3) ->
    NewDevice_run cdevice s (None, errors_New "Cannot retrieve Index property") s3
| run_resolved u s1 n s2 i s3 :
    UUID L (mkDevice cdevice 0 "" "" "") s = (Returned (u, None), s1) ->
    Name L (mkDevice cdevice 0 "" "" u) s1 = (Returned (n, None), s2) ->
    Index L (mkDevice cdevice 0 "" n u) s2 = (Returned (i, None), s3) ->
    NewDevice_run cdevice s (Some (mkDevice cdevice i "" n u), None) s3.

(** [Constructs s hs ds s']: started in [s], [NewDevice] succeeds on each
    handle of [hs] in turn; [ds] are the devices and [s'] the final state. *)
Inductive Constructs : St L -> list nvmlDevice_t -> list Device -> St L -> Prop :=
| Constructs_nil s : Constructs s [] [] s
| Constructs_cons s h d s1 hs ds s2 :
    NewDevice L h s = (Returned (Some d, None), s1) ->
    Constructs s1 hs ds s2 ->
    Constructs s (h :: hs) (d :: ds) s2.

(** The handle lookups for the [m] indices [i], [i + 1], ... *)
Definition lookup_calls (i : Z) (m : nat) : list NativeCall :=
  map (fun j => CallGetHandleByIndex (i + Z.of_nat j)) (seq 0 m).

(** Calls of the two dispatchers. *)
Definition is_accessor_call (c : NativeCall) : bool :=
  match c with
  | CallInt _ _ | CallText _ _ _ => true
  | _ => false
  end.

(** The answers of the native accessors do not depend on the world: the
    same question gets the same status and output at any time. *)
Definition stable_accessors : Prop :=
  (forall f dev len w1 w2,
      fst (native_text L f dev len w1) = fst (native_text L f dev len w2))
  /\ (forall f dev w1 w2, fst (native_int L f dev w1) = fst (native_int L f dev w2)).

(** [LooksUp w i hs w']: started in the world [w], the handle lookups for
    the indices [i], [i + 1], ... succeed one after the other; [hs] are
    the handles the library hands out, in this order, and [w'] is the
    world after the last of them. *)
Inductive LooksUp : World L -> Z -> list nvmlDevice_t -> World L -> Prop :=
| LooksUp_nil w i : LooksUp w i [] w
| LooksUp_cons w i h w1 hs w2 :
    native_GetHandleByIndex L i w = (NVML_SUCCESS, h, w1) ->
    LooksUp w1 (i + 1) hs w2 ->
    LooksUp w i (h :: hs) w2.

(** The log entries of calls that all succeeded. *)
Definition succeeded (cs : list NativeCall) : list Event :=
  map (fun c => mkEvent c NVML_SUCCESS) cs.

(** What [NewDevice] leaves in the fields of a device it returns. *)
Definition resolved (d : Device) : Prop :=
  pcibus d = "" /\ uuid d <> "" /\ name d <> "" /\ 0 <= index d < 2 ^ 32.

End Vocabulary.

Arguments new_calls {L A} m s.
Arguments returns {L A} m.

(** ** Sample runs *)

Example enumerate_healthy_devices :
  fst (GetAllGPUs _ (Stub.start Stub.healthy))
  = Returned ([ mkDevice 100 0 "" "Tesla K40m" "GPU-0";
                mkDevice 101 1 "" "Tesla K40m" "GPU-0";
                mkDevice 102 2 "" "Tesla K40m" "GPU-0" ], None).
Proof. vm_compute. reflexivity. Qed.

Example enumerate_healthy_calls :
  map ev_call (calls (snd (GetAllGPUs _ (Stub.start Stub.healthy))))
  = [ CallGetCount;
      CallGetHandleByIndex 0; CallGetHandleByIndex 1; CallGetHandleByIndex 2;
      CallText nvmlDeviceGetUUID 100 80; CallText nvmlDeviceGetName 100 64;
      CallInt nvmlDeviceGetIndex 100;
      CallText nvmlDeviceGetUUID 101 80; CallText nvmlDeviceGetName 101 64;
      CallInt nvmlDeviceGetIndex 101;
      CallText nvmlDeviceGetUUID 102 80; CallText nvmlDeviceGetName 102 64;
      CallInt nvmlDeviceGetIndex 102 ].
Proof. vm_compute. reflexivity. Qed.

Example memory_info_stub :
  fst (MemoryInfo _ (Stub.board 100) (Stub.start Stub.healthy))
  = Returned (mkNVMLMemory 100 150 50, None).
Proof. vm_compute. reflexivity. Qed.

(** ** Conversions *)

Lemma C_uint_range (z : Z) : 0 <= C_uint z < 2 ^ 32.
Proof. unfold C_uint. apply Z.mod_pos_bound. lia. Qed.

Lemma go_uint_small (z : Z) : 0 <= z < 2 ^ 32 -> go_uint z = z.
Proof. intros H. unfold go_uint. apply Z.mod_small. lia. Qed.

Lemma go_int_small (z : Z) : 0 <= z < 2 ^ 32 -> go_int z = z.
Proof.
  intros H. unfold go_int.
  rewrite Z.mod_small by lia.
  destruct (z <? 2 ^ 63) eqn:E; [reflexivity|].
  apply Z.ltb_ge in E. lia.
Qed.

Lemma go_uint_C_uint (z : Z) : go_uint (C_uint z) = C_uint z.
Proof. apply go_uint_small, C_uint_range. Qed.

(** ** Decoding *)

Lemma length_string_of_list_byte (bs : list byte) :
  String.length (string_of_list_byte bs) = length bs.
Proof.
  induction bs as [|b bs IH]; [reflexivity|].
  change (S (String.length (string_of_list_byte bs)) = S (length bs)).
  now rewrite IH.
Qed.

Lemma until_nul_length (bs : list byte) : (length (until_nul bs) <= length bs)%nat.
Proof.
  induction bs as [|b bs IH]; simpl; [lia|].
  destruct (Byte.eqb b x00); simpl; lia.
Qed.

Lemma until_nul_no_nul (bs : list byte) : ~ In x00 (until_nul bs).
Proof.
  induction bs as [|b bs IH]; simpl; [tauto|].
  destruct (Byte.eqb b x00) eqn:E; simpl; [tauto|].
  intros [->|H]; [|tauto].
  discriminate E.
Qed.

(** [until_nul] splits its argument at the first NUL. *)
Lemma until_nul_split (bs : list byte) :
  exists rest, bs = (until_nul bs ++ rest)%list /\ (rest = [] \/ hd x01 rest = x00).
Proof.
  induction bs as [|b bs [rest [IH1 IH2]]]; simpl.
  - exists []; split; [reflexivity | now left].
  - destruct (Byte.eqb b x00) eqn:E.
    + apply Byte.byte_dec_bl in E. subst b.
      exists (x00 :: bs). split; [reflexivity | now right].
    + exists rest. split; [simpl; now rewrite <- IH1 | exact IH2].
Qed.

Lemma strndup_length (buf : list byte) (n : Z) : 0 <= n -> len (strndup buf n) <= n.
Proof.
  intros Hn. unfold len, strndup.
  rewrite length_string_of_list_byte.
  pose proof (until_nul_length (firstn (Z.to_nat n) buf)) as H1.
  pose proof (firstn_le_length (Z.to_nat n) buf) as H2.
  lia.
Qed.

(** ** The dispatchers *)

Section Dispatch.

Variable L : NativeLayer.
Implicit Types (gpu : Device) (s : St L) (property : string).

(** Small-step facts of the monad. *)
Lemma bind_returned {A B} (m : M L A) (k : A -> M L B) s a s' :
  m s = (Returned a, s') -> bind m k s = k a s'.
Proof. intros H. unfold bind. now rewrite H. Qed.

Lemma bind_fatal {A B} (m : M L A) (k : A -> M L B) s msg s' :
  m s = (Fatal msg, s') -> bind m k s = (Fatal msg, s').
Proof. intros H. unfold bind. now rewrite H. Qed.

Lemma invoke_run {A} (c : NativeCall) (run : World L -> nvmlReturn_t * A * World L)
      s st a w' :
  run (world s) = (st, a, w') ->
  invoke c run s = (Returned (st, a), mkSt w' (calls s ++ [mkEvent c st])).
Proof. intros H. unfold invoke. now rewrite H. Qed.

Lemma new_calls_app {A} (m : M L A) s evs :
  calls (snd (m s)) = calls s ++ evs -> new_calls m s = evs.
Proof. intros H. unfold new_calls. rewrite H. apply drop_app_length. Qed.

(** The integer dispatcher, by cases on the registry and on the native
    status. *)
Lemma intProperty_absent gpu property s :
  intpropfunctions !! property = None ->
  intProperty L gpu property s = (Returned (0, errors_New "property not found"), s).
Proof. intros H. unfold intProperty. now rewrite H. Qed.

Lemma intProperty_present gpu property ipf s st v w' :
  intpropfunctions !! property = Some ipf ->
  native_int L (ipf_f ipf) (nvmldevice gpu) (world s) = (st, v, w') ->
  intProperty L gpu property s
  = (Returned (if st =? NVML_SUCCESS
               then (C_uint v, None)
               else (0, errors_New "getintProperty bridge returned error")),
     mkSt w' (calls s ++ [mkEvent (CallInt (ipf_f ipf) (nvmldevice gpu)) st])).
Proof.
  intros Hreg Hrun. unfold intProperty. rewrite Hreg.
  unfold bridge_get_int_property.
  erewrite bind_returned.
  2:{ erewrite bind_returned; [|apply invoke_run, Hrun]. reflexivity. }
  destruct (st =? NVML_SUCCESS); simpl; unfold ret; [|reflexivity].
  now rewrite go_uint_C_uint.
Qed.

(** The text dispatcher, likewise. *)
Lemma textProperty_absent gpu property s :
  textpropfunctions L !! property = None ->
  textProperty L gpu property s = (Returned ("", errors_New "property not found"), s).
Proof. intros H. unfold textProperty. now rewrite H. Qed.

Lemma textProperty_present gpu property tpf s st buf w' :
  textpropfunctions L !! property = Some tpf ->
  native_text L (tpf_f tpf) (nvmldevice gpu) (tpf_length tpf) (world s) = (st, buf, w') ->
  textProperty L gpu property s
  = (Returned (if st =? NVML_SUCCESS
               then
                 if len (strndup buf (go_uint (tpf_length tpf))) >? 0
                 then (strndup buf (go_uint (tpf_length tpf)), None)
                 else ("", errors_New "textProperty returned empty string")
               else ("", errors_New "gettextProperty bridge returned error")),
     mkSt w' (calls s ++
              [mkEvent (CallText (tpf_f tpf) (nvmldevice gpu) (tpf_length tpf)) st])).
Proof.
  intros Hreg Hrun. unfold textProperty. rewrite Hreg.
  unfold bridge_get_text_property.
  erewrite bind_returned.
  2:{ erewrite bind_returned; [|apply invoke_run, Hrun]. reflexivity. }
  destruct (st =? NVML_SUCCESS); simpl; unfold ret; [|reflexivity].
  now destruct (len _ >? 0).
Qed.

(** The declared length of a registered text property fits a [C.uint]. *)
Lemma textpropfunctions_length property tpf :
  textpropfunctions L !! property = Some tpf -> 0 <= tpf_length tpf < 2 ^ 32.
Proof.
  unfold textpropfunctions. intros H.
  apply elem_of_list_to_map_2 in H.
  repeat (apply elem_of_cons in H as [H|H];
          [injection H as _ ->; apply C_uint_range|]).
  now apply elem_of_nil in H.
Qed.

(** Both dispatchers come back to the caller, and what the integer one
    hands back fits a [C.uint]. *)
Lemma intProperty_returns gpu property s :
  exists p err s', intProperty L gpu property s = (Returned (p, err), s')
                   /\ 0 <= p < 2 ^ 32.
Proof.
  destruct (intpropfunctions !! property) as [ipf|] eqn:Hreg.
  - destruct (native_int L (ipf_f ipf) (nvmldevice gpu) (world s)) as [[st v] w'] eqn:Hrun.
    rewrite (intProperty_present _ _ _ _ _ _ _ Hreg Hrun).
    destruct (st =? NVML_SUCCESS); eexists _, _, _; (split; [reflexivity|]).
    + apply C_uint_range.
    + lia.
  - rewrite (intProperty_absent _ _ _ Hreg). eexists _, _, _. split; [reflexivity|lia].
Qed.

Lemma textProperty_returns gpu property s :
  exists v err s', textProperty L gpu property s = (Returned (v, err), s').
Proof.
  destruct (textpropfunctions L !! property) as [tpf|] eqn:Hreg.
  - destruct (native_text L (tpf_f tpf) (nvmldevice gpu) (tpf_length tpf) (world s))
      as [[st buf] w'] eqn:Hrun.
    rewrite (textProperty_present _ _ _ _ _ _ _ Hreg Hrun).
    destruct (st =? NVML_SUCCESS); [destruct (len _ >? 0)|]; eexists _, _, _; reflexivity.
  - rewrite (textProperty_absent _ _ _ Hreg). eexists _, _, _; reflexivity.
Qed.

(** C8: for a property name absent from the corresponding registry,
    [intProperty] and [textProperty] return the error "property not found"
    and leave the state as it was: the world of the library and the log
    of native calls are untouched, so no native call is made. *)
Theorem C8_property_not_found gpu property s :
  (intpropfunctions !! property = None ->
   intProperty L gpu property s = (Returned (0, errors_New "property not found"), s)
   /\ new_calls (intProperty L gpu property) s = [])
  /\
  (textpropfunctions L !! property = None ->
   textProperty L gpu property s = (Returned ("", errors_New "property not found"), s)
   /\ new_calls (textProperty L gpu property) s = []).
Proof.
  split; intros H.
  - rewrite (intProperty_absent _ _ _ H). split; [reflexivity|].
    apply new_calls_app. rewrite (intProperty_absent _ _ _ H). simpl.
    now rewrite app_nil_r.
  - rewrite (textProperty_absent _ _ _ H). split; [reflexivity|].
    apply new_calls_app. rewrite (textProperty_absent _ _ _ H). simpl.
    now rewrite app_nil_r.
Qed.

Lemma intpropfunctions_MultiGpuBoard :
  intpropfunctions !! "MultiGpuBoard" = Some (mkIntPropFunc nvmlDeviceGetMultiGpuBoard).
Proof. vm_compute. reflexivity. Qed.

(** C2: [MultiGpuBoard] answers [true] exactly when the integer it gets
    from [intProperty "MultiGpuBoard"] is 0, and hands the error on as it
    is.  On a successful native call that integer is the value the native
    accessor wrote; when the accessor fails [intProperty] yields 0 with an
    error, and [MultiGpuBoard] returns [(true, error)]. *)
Theorem C2_MultiGpuBoard_zero_is_true gpu s :
  (forall p err s',
      intProperty L gpu "MultiGpuBoard" s = (Returned (p, err), s') ->
      MultiGpuBoard L gpu s = (Returned (p =? 0, err), s'))
  /\
  (forall st v w',
      native_int L nvmlDeviceGetMultiGpuBoard (nvmldevice gpu) (world s) = (st, v, w') ->
      MultiGpuBoard L gpu s
      = (Returned (if st =? NVML_SUCCESS
                   then (C_uint v =? 0, None)
                   else (true, errors_New "getintProperty bridge returned error")),
         mkSt w' (calls s ++
                  [mkEvent (CallInt nvmlDeviceGetMultiGpuBoard (nvmldevice gpu)) st]))).
Proof.
  assert (Hfirst : forall p err s',
             intProperty L gpu "MultiGpuBoard" s = (Returned (p, err), s') ->
             MultiGpuBoard L gpu s = (Returned (p =? 0, err), s')).
  { intros p err s' H.
    destruct (intProperty_returns gpu "MultiGpuBoard" s) as (p0 & e0 & s0 & Heq & Hp).
    rewrite Heq in H. injection H as -> -> ->.
    unfold MultiGpuBoard. rewrite (bind_returned _ _ _ _ _ Heq).
    rewrite (go_int_small _ Hp).
    now destruct (p =? 0). }
  split; [exact Hfirst|].
  intros st v w' Hrun.
  pose proof (intProperty_present gpu _ _ s _ _ _ intpropfunctions_MultiGpuBoard Hrun) as H.
  simpl in H.
  destruct (st =? NVML_SUCCESS); apply Hfirst in H; exact H.
Qed.

(** C3 (amended): for every registered property name, when the native
    accessor returns a non-success status, [intProperty] fails with the
    fixed message "getintProperty bridge returned error" and
    [textProperty] with the fixed message "gettextProperty bridge returned
    error", whatever the status was; the message of the native library
    for that status is not part of the error. *)
Theorem C3_accessor_failure_has_fixed_message gpu property s :
  (forall ipf st v w',
      intpropfunctions !! property = Some ipf ->
      native_int L (ipf_f ipf) (nvmldevice gpu) (world s) = (st, v, w') ->
      st <> NVML_SUCCESS ->
      fst (intProperty L gpu property s)
      = Returned (0, errors_New "getintProperty bridge returned error"))
  /\
  (forall tpf st buf w',
      textpropfunctions L !! property = Some tpf ->
      native_text L (tpf_f tpf) (nvmldevice gpu) (tpf_length tpf) (world s) = (st, buf, w') ->
      st <> NVML_SUCCESS ->
      fst (textProperty L gpu property s)
      = Returned ("", errors_New "gettextProperty bridge returned error")).
Proof.
  split.
  - intros ipf st v w' Hreg Hrun Hst.
    rewrite (intProperty_present _ _ _ _ _ _ _ Hreg Hrun). simpl.
    apply Z.eqb_neq in Hst. now rewrite Hst.
  - intros tpf st buf w' Hreg Hrun Hst.
    rewrite (textProperty_present _ _ _ _ _ _ _ Hreg Hrun). simpl.
    apply Z.eqb_neq in Hst. now rewrite Hst.
Qed.

Lemma len_empty (v : string) : len v = 0 -> v = "".
Proof. unfold len. destruct v; [reflexivity | simpl; lia]. Qed.

(** C9: when a text accessor reports success and the decoded string has
    length zero, [textProperty] returns the error "textProperty returned
    empty string"; whenever [textProperty] returns without an error, the
    string it returns is not empty. *)
Theorem C9_empty_text_is_an_error gpu property s :
  (forall tpf st buf w',
      textpropfunctions L !! property = Some tpf ->
      native_text L (tpf_f tpf) (nvmldevice gpu) (tpf_length tpf) (world s) = (st, buf, w') ->
      st = NVML_SUCCESS ->
      len (strndup buf (go_uint (tpf_length tpf))) = 0 ->
      fst (textProperty L gpu property s)
      = Returned ("", errors_New "textProperty returned empty string"))
  /\
  (forall v s',
      textProperty L gpu property s = (Returned (v, None), s') ->
      v <> "" /\ len v > 0).
Proof.
  split.
  - intros tpf st buf w' Hreg Hrun -> Hlen.
    rewrite (textProperty_present _ _ _ _ _ _ _ Hreg Hrun). simpl.
    now rewrite Hlen.
  - intros v s' H.
    destruct (textpropfunctions L !! property) as [tpf|] eqn:Hreg.
    + destruct (native_text L (tpf_f tpf) (nvmldevice gpu) (tpf_length tpf) (world s))
        as [[st buf] w'] eqn:Hrun.
      rewrite (textProperty_present _ _ _ _ _ _ _ Hreg Hrun) in H.
      destruct (st =? NVML_SUCCESS); [|discriminate H].
      destruct (len _ >? 0) eqn:Hlen; [|discriminate H].
      injection H as <- _.
      apply Z.gtb_lt in Hlen.
      split; [|lia].
      intros Hv. rewrite Hv in Hlen. unfold len in Hlen. simpl in Hlen. lia.
    + rewrite (textProperty_absent _ _ _ Hreg) in H. discriminate H.
Qed.

(** C6: for every registered text property and whatever bytes the native
    accessor leaves in the buffer, the string [textProperty] returns is no
    longer than the declared buffer length of the property and holds no
    NUL; on success it is the part of the first [tpf_length] bytes of the
    buffer that precedes the first NUL (all of them when there is none). *)
Theorem C6_text_within_declared_length gpu property tpf s v err s' :
  textpropfunctions L !! property = Some tpf ->
  textProperty L gpu property s = (Returned (v, err), s') ->
  len v <= tpf_length tpf
  /\ ~ In x00 (list_byte_of_string v)
  /\ (err = None ->
      forall st buf w',
        native_text L (tpf_f tpf) (nvmldevice gpu) (tpf_length tpf) (world s)
        = (st, buf, w') ->
        exists rest,
          firstn (Z.to_nat (tpf_length tpf)) buf = list_byte_of_string v ++ rest
          /\ (rest = [] \/ hd x01 rest = x00)).
Proof.
  intros Hreg H.
  pose proof (textpropfunctions_length _ _ Hreg) as Hlen.
  destruct (native_text L (tpf_f tpf) (nvmldevice gpu) (tpf_length tpf) (world s))
    as [[st buf] w'] eqn:Hrun.
  rewrite (textProperty_present _ _ _ _ _ _ _ Hreg Hrun) in H.
  rewrite (go_uint_small _ Hlen) in H.
  assert (Hempty : len "" <= tpf_length tpf /\ ~ In x00 (list_byte_of_string ""))
    by (split; [unfold len; simpl; lia | simpl; tauto]).
  destruct (st =? NVML_SUCCESS).
  - destruct (len _ >? 0).
    + injection H as <- <- _.
      split; [apply strndup_length; lia|].
      unfold strndup. rewrite list_byte_of_string_of_list_byte.
      split; [apply until_nul_no_nul|].
      intros _ st0 buf0 w0 Heq. injection Heq as _ <- _.
      apply until_nul_split.
    + injection H as <- <- _.
      destruct Hempty as [H1 H2]. split; [exact H1|]. split; [exact H2|].
      intros Hn. discriminate Hn.
  - injection H as <- <- _.
    destruct Hempty as [H1 H2]. split; [exact H1|]. split; [exact H2|].
    intros Hn. discriminate Hn.
Qed.

End Dispatch.

(** ** Construction *)

Section Construction.

Variable L : NativeLayer.
Implicit Types (gpu : Device) (s : St L) (cdevice : nvmlDevice_t).

Lemma textpropfunctions_UUID :
  textpropfunctions L !! "UUID"
  = Some (mkTextPropFunc nvmlDeviceGetUUID (C_uint (NVML_DEVICE_UUID_BUFFER_SIZE L))).
Proof. reflexivity. Qed.

Lemma textpropfunctions_Name :
  textpropfunctions L !! "Name"
  = Some (mkTextPropFunc nvmlDeviceGetName (C_uint (NVML_DEVICE_NAME_BUFFER_SIZE L))).
Proof. reflexivity. Qed.

Lemma intpropfunctions_Index :
  intpropfunctions !! "Index" = Some (mkIntPropFunc nvmlDeviceGetIndex).
Proof. reflexivity. Qed.

(** Each identity accessor makes exactly one native call, on the handle
    of the device, and its result does not depend on the cached fields. *)
Lemma UUID_one_call gpu s :
  exists v err s',
    UUID L gpu s = (Returned (v, err), s')
    /\ exists st, calls s' = calls s ++ [mkEvent (uuid_call L (nvmldevice gpu)) st].
Proof.
  destruct (native_text L nvmlDeviceGetUUID (nvmldevice gpu)
              (C_uint (NVML_DEVICE_UUID_BUFFER_SIZE L)) (world s)) as [[st buf] w'] eqn:Hrun.
  unfold UUID.
  rewrite (textProperty_present L gpu _ _ s _ _ _ textpropfunctions_UUID Hrun).
  destruct (st =? NVML_SUCCESS); [destruct (len _ >? 0)|];
    eexists _, _, _; (split; [reflexivity | eexists; reflexivity]).
Qed.

Lemma Name_one_call gpu s :
  exists v err s',
    Name L gpu s = (Returned (v, err), s')
    /\ exists st, calls s' = calls s ++ [mkEvent (name_call L (nvmldevice gpu)) st].
Proof.
  destruct (native_text L nvmlDeviceGetName (nvmldevice gpu)
              (C_uint (NVML_DEVICE_NAME_BUFFER_SIZE L)) (world s)) as [[st buf] w'] eqn:Hrun.
  unfold Name.
  rewrite (textProperty_present L gpu _ _ s _ _ _ textpropfunctions_Name Hrun).
  destruct (st =? NVML_SUCCESS); [destruct (len _ >? 0)|];
    eexists _, _, _; (split; [reflexivity | eexists; reflexivity]).
Qed.

Lemma Index_one_call gpu s :
  exists v err s',
    Index L gpu s = (Returned (v, err), s')
    /\ exists st, calls s' = calls s ++ [mkEvent (index_call (nvmldevice gpu)) st].
Proof.
  destruct (native_int L nvmlDeviceGetIndex (nvmldevice gpu) (world s))
    as [[st v] w'] eqn:Hrun.
  unfold Index.
  rewrite (intProperty_present L gpu _ _ s _ _ _ intpropfunctions_Index Hrun).
  destruct (st =? NVML_SUCCESS);
    eexists _, _, _; (split; [reflexivity | eexists; reflexivity]).
Qed.

Lemma textProperty_handle_only gpu gpu' property s :
  nvmldevice gpu' = nvmldevice gpu ->
  textProperty L gpu' property s = textProperty L gpu property s.
Proof. intros H. unfold textProperty. now rewrite H. Qed.

Lemma intProperty_handle_only gpu gpu' property s :
  nvmldevice gpu' = nvmldevice gpu ->
  intProperty L gpu' property s = intProperty L gpu property s.
Proof. intros H. unfold intProperty. now rewrite H. Qed.

(** [NewDevice], step by step. *)
Lemma NewDevice_uuid_fails cdevice s v e s1 :
  UUID L (mkDevice cdevice 0 "" "" "") s = (Returned (v, Some e), s1) ->
  NewDevice L cdevice s
  = (Returned (None, errors_New "Cannot retrieve UUID property"), s1).
Proof. intros H. unfold NewDevice. now rewrite (bind_returned L _ _ _ _ _ H). Qed.

Lemma NewDevice_name_fails cdevice s u s1 v e s2 :
  UUID L (mkDevice cdevice 0 "" "" "") s = (Returned (u, None), s1) ->
  Name L (mkDevice cdevice 0 "" "" u) s1 = (Returned (v, Some e), s2) ->
  NewDevice L cdevice s
  = (Returned (None, errors_New "Cannot retrieve Name property"), s2).
Proof.
  intros H1 H2. unfold NewDevice.
  rewrite (bind_returned L _ _ _ _ _ H1). unfold with_uuid. simpl.
  now rewrite (bind_returned L _ _ _ _ _ H2).
Qed.

Lemma NewDevice_index_fails cdevice s u s1 n s2 v e s3 :
  UUID L (mkDevice cdevice 0 "" "" "") s = (Returned (u, None), s1) ->
  Name L (mkDevice cdevice 0 "" "" u) s1 = (Returned (n, None), s2) ->
  Index L (mkDevice cdevice 0 "" n u) s2 = (Returned (v, Some e), s3) ->
  NewDevice L cdevice s
  = (Returned (None, errors_New "Cannot retrieve Index property"), s3).
Proof.
  intros H1 H2 H3. unfold NewDevice.
  rewrite (bind_returned L _ _ _ _ _ H1). unfold with_uuid. simpl.
  rewrite (bind_returned L _ _ _ _ _ H2). unfold with_name. simpl.
  now rewrite (bind_returned L _ _ _ _ _ H3).
Qed.

Lemma NewDevice_all_resolved cdevice s u s1 n s2 i s3 :
  UUID L (mkDevice cdevice 0 "" "" "") s = (Returned (u, None), s1) ->
  Name L (mkDevice cdevice 0 "" "" u) s1 = (Returned (n, None), s2) ->
  Index L (mkDevice cdevice 0 "" n u) s2 = (Returned (i, None), s3) ->
  NewDevice L cdevice s = (Returned (Some (mkDevice cdevice i "" n u), None), s3).
Proof.
  intros H1 H2 H3. unfold NewDevice.
  rewrite (bind_returned L _ _ _ _ _ H1). unfold with_uuid. simpl.
  rewrite (bind_returned L _ _ _ _ _ H2). unfold with_name. simpl.
  now rewrite (bind_returned L _ _ _ _ _ H3).
Qed.

Lemma NewDevice_runs cdevice s :
  exists r s', NewDevice L cdevice s = (Returned r, s') /\ NewDevice_run L cdevice s r s'.
Proof.
  destruct (UUID_one_call (mkDevice cdevice 0 "" "" "") s) as (u & e1 & s1 & H1 & _).
  destruct e1 as [e1|].
  { eexists _, _. split; [eapply NewDevice_uuid_fails, H1 | eapply run_uuid_fails, H1]. }
  destruct (Name_one_call (mkDevice cdevice 0 "" "" u) s1) as (n & e2 & s2 & H2 & _).
  destruct e2 as [e2|].
  { eexists _, _. split; [eapply NewDevice_name_fails; eassumption
                        | eapply run_name_fails; eassumption]. }
  destruct (Index_one_call (mkDevice cdevice 0 "" n u) s2) as (i & e3 & s3 & H3 & _).
  destruct e3 as [e3|].
  { eexists _, _. split; [eapply NewDevice_index_fails; eassumption
                        | eapply run_index_fails; eassumption]. }
  eexists _, _. split; [eapply NewDevice_all_resolved; eassumption
                      | eapply run_resolved; eassumption].
Qed.

Lemma UUID_calls gpu s v err s' :
  UUID L gpu s = (Returned (v, err), s') ->
  exists st, calls s' = calls s ++ [mkEvent (uuid_call L (nvmldevice gpu)) st].
Proof.
  intros H. destruct (UUID_one_call gpu s) as (v0 & e0 & s0 & Heq & Hcalls).
  rewrite Heq in H. injection H as _ _ <-. exact Hcalls.
Qed.

Lemma Name_calls gpu s v err s' :
  Name L gpu s = (Returned (v, err), s') ->
  exists st, calls s' = calls s ++ [mkEvent (name_call L (nvmldevice gpu)) st].
Proof.
  intros H. destruct (Name_one_call gpu s) as (v0 & e0 & s0 & Heq & Hcalls).
  rewrite Heq in H. injection H as _ _ <-. exact Hcalls.
Qed.

Lemma Index_calls gpu s v err s' :
  Index L gpu s = (Returned (v, err), s') ->
  exists st, calls s' = calls s ++ [mkEvent (index_call (nvmldevice gpu)) st].
Proof.
  intros H. destruct (Index_one_call gpu s) as (v0 & e0 & s0 & Heq & Hcalls).
  rewrite Heq in H. injection H as _ _ <-. exact Hcalls.
Qed.

(** The native calls of a run of [NewDevice]: a non-empty initial part of
    UUID, Name, Index, and all three when a device comes back. *)
Lemma NewDevice_run_calls cdevice s r s' :
  NewDevice_run L cdevice s r s' ->
  exists evs k,
    calls s' = calls s ++ evs
    /\ (1 <= k <= 3)%nat
    /\ map ev_call evs
       = firstn k [uuid_call L cdevice; name_call L cdevice; index_call cdevice]
    /\ (fst r <> None -> k = 3%nat)
    /\ Forall (fun ev => is_handle_lookup (ev_call ev) = false) evs.
Proof.
  intros Hrun. destruct Hrun as [v e s1 H1 | u s1 v e s2 H1 H2
                                | u s1 n s2 v e s3 H1 H2 H3 | u s1 n s2 i s3 H1 H2 H3].
  - apply UUID_calls in H1 as [st1 H1].
    exists [mkEvent (uuid_call L cdevice) st1], 1%nat.
    split; [exact H1|]. split; [lia|]. split; [reflexivity|].
    split; [simpl; congruence | repeat constructor].
  - apply UUID_calls in H1 as [st1 H1]. apply Name_calls in H2 as [st2 H2].
    exists [mkEvent (uuid_call L cdevice) st1; mkEvent (name_call L cdevice) st2], 2%nat.
    split; [rewrite H2, H1, <- app_assoc; reflexivity|].
    split; [lia|]. split; [reflexivity|].
    split; [simpl; congruence | repeat constructor].
  - apply UUID_calls in H1 as [st1 H1]. apply Name_calls in H2 as [st2 H2].
    apply Index_calls in H3 as [st3 H3].
    exists [mkEvent (uuid_call L cdevice) st1; mkEvent (name_call L cdevice) st2;
            mkEvent (index_call cdevice) st3], 3%nat.
    split; [rewrite H3, H2, H1, <- !app_assoc; reflexivity|].
    split; [lia|]. split; [reflexivity|].
    split; [simpl; congruence | repeat constructor].
  - apply UUID_calls in H1 as [st1 H1]. apply Name_calls in H2 as [st2 H2].
    apply Index_calls in H3 as [st3 H3].
    exists [mkEvent (uuid_call L cdevice) st1; mkEvent (name_call L cdevice) st2;
            mkEvent (index_call cdevice) st3], 3%nat.
    split; [rewrite H3, H2, H1, <- !app_assoc; reflexivity|].
    split; [lia|]. split; [reflexivity|].
    split; [reflexivity | repeat constructor].
Qed.

(** What a returned [Device] holds. *)
Lemma NewDevice_returned_device cdevice s d err s' :
  NewDevice L cdevice s = (Returned (Some d, err), s') ->
  err = None /\ nvmldevice d = cdevice /\ pcibus d = ""
  /\ exists s1 s2,
      UUID L (mkDevice cdevice 0 "" "" "") s = (Returned (uuid d, None), s1)
      /\ Name L (mkDevice cdevice 0 "" "" (uuid d)) s1 = (Returned (name d, None), s2)
      /\ Index L (mkDevice cdevice 0 "" (name d) (uuid d)) s2
         = (Returned (index d, None), s').
Proof.
  intros H. destruct (NewDevice_runs cdevice s) as (r & s0 & Heq & Hrun).
  rewrite Heq in H. injection H as -> ->.
  inversion Hrun as [| | | u s1 n s2 i s3 H1 H2 H3]; subst. simpl.
  split; [reflexivity|]. split; [reflexivity|]. split; [reflexivity|].
  exists s1, s2. auto.
Qed.

(** C7: [NewDevice] resolves UUID, then Name, then Index.  When one of
    them fails it returns at once with [nil] and an error, in the state
    the failing resolution left, so nothing later is attempted; the native
    calls it makes are an initial part of UUID, Name, Index.  It returns
    [nil] exactly when it returns an error, and a returned [Device] holds
    the three values as they were resolved. *)
Theorem C7_NewDevice_in_order_fail_fast cdevice s :
  (forall v e s1,
      UUID L (mkDevice cdevice 0 "" "" "") s = (Returned (v, Some e), s1) ->
      NewDevice L cdevice s
      = (Returned (None, errors_New "Cannot retrieve UUID property"), s1))
  /\
  (forall u s1 v e s2,
      UUID L (mkDevice cdevice 0 "" "" "") s = (Returned (u, None), s1) ->
      Name L (mkDevice cdevice 0 "" "" u) s1 = (Returned (v, Some e), s2) ->
      NewDevice L cdevice s
      = (Returned (None, errors_New "Cannot retrieve Name property"), s2))
  /\
  (forall u s1 n s2 v e s3,
      UUID L (mkDevice cdevice 0 "" "" "") s = (Returned (u, None), s1) ->
      Name L (mkDevice cdevice 0 "" "" u) s1 = (Returned (n, None), s2) ->
      Index L (mkDevice cdevice 0 "" n u) s2 = (Returned (v, Some e), s3) ->
      NewDevice L cdevice s
      = (Returned (None, errors_New "Cannot retrieve Index property"), s3))
  /\
  (exists d err s' k,
      NewDevice L cdevice s = (Returned (d, err), s')
      /\ (d = None <-> err <> None)
      /\ (1 <= k <= 3)%nat
      /\ map ev_call (new_calls (NewDevice L cdevice) s)
         = firstn k [uuid_call L cdevice; name_call L cdevice; index_call cdevice]
      /\ (d <> None -> k = 3%nat))
  /\
  (forall d err s',
      NewDevice L cdevice s = (Returned (Some d, err), s') ->
      err = None /\ nvmldevice d = cdevice
      /\ exists s1 s2,
          UUID L (mkDevice cdevice 0 "" "" "") s = (Returned (uuid d, None), s1)
          /\ Name L (mkDevice cdevice 0 "" "" (uuid d)) s1 = (Returned (name d, None), s2)
          /\ Index L (mkDevice cdevice 0 "" (name d) (uuid d)) s2
             = (Returned (index d, None), s')).
Proof.
  split; [intros; eapply NewDevice_uuid_fails; eassumption|].
  split; [intros; eapply NewDevice_name_fails; eassumption|].
  split; [intros; eapply NewDevice_index_fails; eassumption|].
  split.
  - destruct (NewDevice_runs cdevice s) as ([d err] & s' & Heq & Hrun).
    destruct (NewDevice_run_calls _ _ _ _ Hrun) as (evs & k & Hcalls & Hk & Hmap & Hfull & _).
    exists d, err, s', k.
    split; [exact Heq|].
    split; [inversion Hrun; subst; unfold errors_New; split; congruence|].
    split; [exact Hk|].
    split; [|exact Hfull].
    rewrite (new_calls_app L (NewDevice L cdevice) s evs); [exact Hmap|].
    rewrite Heq. exact Hcalls.
  - intros d err s' H.
    destruct (NewDevice_returned_device _ _ _ _ _ H) as (He & Hh & _ & Hres).
    auto.
Qed.

End Construction.

(** ** Enumeration *)

Section Enumeration.

Variable L : NativeLayer.
Implicit Types (gpu : Device) (s : St L) (cdevice : nvmlDevice_t).

Lemma nvmlDeviceGetCount_run s st c w' :
  native_GetCount L (world s) = (st, c, w') ->
  nvmlDeviceGetCount L s
  = (Returned (if st =? NVML_SUCCESS
               then (C_uint c, None)
               else (-1, errors_New "nvmlDeviceGetCount failed")),
     mkSt w' (calls s ++ [mkEvent CallGetCount st])).
Proof.
  intros Hrun. unfold nvmlDeviceGetCount.
  rewrite (bind_returned L _ _ _ _ _ (invoke_run L _ _ _ _ _ _ Hrun)).
  destruct (st =? NVML_SUCCESS); simpl; unfold ret; [|reflexivity].
  now rewrite (go_int_small _ (C_uint_range c)).
Qed.

(** The handle loop: it logs handle lookups only; when it runs to its end
    every lookup succeeded and [n] handles were appended; when it leaves
    the function early the error is that of the failed lookup. *)
Lemma getAllDevices_for_spec (n : nat) : forall i devices s,
  exists devices' r s' evs,
    getAllDevices_for L n i devices s = (Returned (devices', r), s')
    /\ calls s' = calls s ++ evs
    /\ Forall (fun ev => is_handle_lookup (ev_call ev) = true) evs
    /\ (r = None ->
        Forall (fun ev => ev_status ev = NVML_SUCCESS) evs
        /\ length devices' = (length devices + n)%nat)
    /\ (r <> None -> r = errors_New "nvmlDeviceGetHandleByIndex returns error").
Proof.
  induction n as [|n IH]; intros i devices s.
  - exists devices, None, s, []. simpl.
    split; [reflexivity|]. split; [now rewrite app_nil_r|].
    split; [constructor|]. split; [|congruence].
    intros _. split; [constructor | lia].
  - destruct (native_GetHandleByIndex L (C_uint i) (world s)) as [[st device] w'] eqn:Hrun.
    simpl. rewrite (bind_returned L _ _ _ _ _ (invoke_run L _ _ _ _ _ _ Hrun)).
    destruct (st =? NVML_SUCCESS) eqn:Hst; simpl.
    + destruct (IH (i + 1) (devices ++ [device])
                   (mkSt w' (calls s ++ [mkEvent (CallGetHandleByIndex (C_uint i)) st])))
        as (devices' & r & s' & evs & Heq & Hcalls & Hlook & Hok & Herr).
      exists devices', r, s', (mkEvent (CallGetHandleByIndex (C_uint i)) st :: evs).
      split; [exact Heq|].
      split; [rewrite Hcalls; simpl; now rewrite <- app_assoc|].
      split; [constructor; [reflexivity | exact Hlook]|].
      split; [|exact Herr].
      intros Hr. destruct (Hok Hr) as [Hall Hlen].
      split.
      * constructor; [simpl; now apply Z.eqb_eq | exact Hall].
      * rewrite Hlen, length_app. simpl. lia.
    + eexists devices, _, _, [_].
      split; [reflexivity|]. split; [reflexivity|].
      split; [repeat constructor|]. split; [discriminate | reflexivity].
Qed.

(** [getAllDevices] is fatal exactly when the count query fails.
    Otherwise it returns, and unless its error is that of a failed handle
    lookup every native call it made succeeded. *)
Lemma getAllDevices_run s st c w' :
  native_GetCount L (world s) = (st, c, w') ->
  (st <> NVML_SUCCESS
   /\ getAllDevices L s
      = (Fatal "nvmlDeviceGetCount failed", mkSt w' (calls s ++ [mkEvent CallGetCount st])))
  \/
  (st = NVML_SUCCESS
   /\ exists devices r s' evs,
       getAllDevices L s = (Returned (devices, r), s')
       /\ calls s' = calls s ++ evs
       /\ (r <> errors_New "nvmlDeviceGetHandleByIndex returns error" ->
           Forall (fun ev => ev_status ev = NVML_SUCCESS) evs)
       /\ (C_uint c = 0 ->
           devices = [] /\ r = errors_New "No devices found"
           /\ s' = mkSt w' (calls s ++ [mkEvent CallGetCount st]))).
Proof.
  intros Hrun. unfold getAllDevices.
  rewrite (bind_returned L _ _ _ _ _ (nvmlDeviceGetCount_run _ _ _ _ Hrun)).
  destruct (st =? NVML_SUCCESS) eqn:Hst.
  - right. apply Z.eqb_eq in Hst. split; [exact Hst|].
    cbv beta iota. erewrite (bind_returned L (ret tt)) by reflexivity.
    destruct (getAllDevices_for_spec (Z.to_nat (C_uint c)) 0 []
                (mkSt w' (calls s ++ [mkEvent CallGetCount st])))
      as (devices & r & s' & evs & Heq & Hcalls & _ & Hok & Herr).
    rewrite (bind_returned L _ _ _ _ _ Heq).
    destruct r as [e|].
    + exists devices, (Some e), s', (mkEvent CallGetCount st :: evs).
      split; [reflexivity|].
      split; [rewrite Hcalls; simpl; now rewrite <- app_assoc|].
      rewrite Herr by discriminate.
      split; [intros Hne; now contradiction Hne|].
      intros Hzero. rewrite Hzero in Heq. simpl in Heq. discriminate Heq.
    + destruct (Hok eq_refl) as [Hall Hlen].
      assert (Hcalls' : calls s' = calls s ++ mkEvent CallGetCount st :: evs)
        by (rewrite Hcalls; simpl; now rewrite <- app_assoc).
      assert (Hall' : Forall (fun ev => ev_status ev = NVML_SUCCESS)
                             (mkEvent CallGetCount st :: evs))
        by (constructor; [exact Hst | exact Hall]).
      destruct (Z.of_nat (length devices) =? 0) eqn:Hempty.
      * exists devices, (errors_New "No devices found"), s', (mkEvent CallGetCount st :: evs).
        split; [reflexivity|]. split; [exact Hcalls'|]. split; [intros _; exact Hall'|].
        intros Hzero. rewrite Hzero in Heq. simpl in Heq.
        injection Heq as <- <-. auto.
      * exists devices, None, s', (mkEvent CallGetCount st :: evs).
        split; [reflexivity|]. split; [exact Hcalls'|]. split; [intros _; exact Hall'|].
        intros Hzero. rewrite Hzero in Heq. simpl in Heq.
        injection Heq as <- <-. simpl in Hempty. discriminate Hempty.
  - left. apply Z.eqb_neq in Hst. split; [exact Hst | reflexivity].
Qed.

(** The construction loop returns, and logs no handle lookup. *)
Lemma GetAllGPUs_range_spec (cdevices : list nvmlDevice_t) : forall devices s,
  exists devices' s' evs,
    GetAllGPUs_range L cdevices devices s = (Returned devices', s')
    /\ calls s' = calls s ++ evs
    /\ Forall (fun ev => is_handle_lookup (ev_call ev) = false) evs.
Proof.
  induction cdevices as [|cdevice rest IH]; intros devices s.
  - exists devices, s, []. simpl.
    split; [reflexivity|]. split; [now rewrite app_nil_r | constructor].
  - destruct (NewDevice_runs L cdevice s) as (r & s1 & Heq & Hrun).
    destruct (NewDevice_run_calls L _ _ _ _ Hrun) as (evs1 & k & Hcalls1 & _ & _ & _ & Hno1).
    simpl. rewrite (bind_returned L _ _ _ _ _ Heq).
    destruct Hrun.
    1-3: (eexists devices, _, evs1; split; [reflexivity|]; split; assumption).
    destruct (IH (devices ++ [mkDevice cdevice i "" n u]) s3)
      as (devices' & s' & evs2 & Heq2 & Hcalls2 & Hno2).
    exists devices', s', (evs1 ++ evs2).
    split; [exact Heq2|].
    split; [rewrite Hcalls2, Hcalls1; now rewrite <- app_assoc|].
    apply Forall_app. split; assumption.
Qed.

(** The construction loop walks through a prefix that constructs. *)
Lemma GetAllGPUs_range_constructs s1 pre ds s2 :
  Constructs L s1 pre ds s2 ->
  forall rest devices,
    GetAllGPUs_range L (pre ++ rest) devices s1
    = GetAllGPUs_range L rest (devices ++ ds) s2.
Proof.
  induction 1 as [s|s h d s1 hs ds s2 Hnew _ IH]; intros rest devices.
  - simpl. now rewrite app_nil_r.
  - simpl. rewrite (bind_returned L _ _ _ _ _ Hnew).
    rewrite IH. now rewrite <- app_assoc.
Qed.

(** C4: when [getAllDevices] succeeded and [NewDevice] fails for one of
    its handles after succeeding for all the handles before it,
    [GetAllGPUs] stops there: it returns the devices built from the
    earlier handles together with a [nil] error, and nothing is attempted
    for the later handles. *)
Theorem C4_construction_failure_is_masked s0 pre h post s1 ds s2 r e s3 :
  getAllDevices L s0 = (Returned (pre ++ h :: post, None), s1) ->
  Constructs L s1 pre ds s2 ->
  NewDevice L h s2 = (Returned (r, Some e), s3) ->
  GetAllGPUs L s0 = (Returned (ds, None), s3).
Proof.
  intros Hall Hpre Hfail. unfold GetAllGPUs.
  rewrite (bind_returned L _ _ _ _ _ Hall). cbv beta iota.
  assert (Hrange : GetAllGPUs_range L (pre ++ h :: post) [] s1 = (Returned ds, s3)).
  { rewrite (GetAllGPUs_range_constructs _ _ _ _ Hpre). simpl.
    now rewrite (bind_returned L _ _ _ _ _ Hfail). }
  now rewrite (bind_returned L _ _ _ _ _ Hrange).
Qed.

(** [GetAllGPUs], by cases on the count query. *)
Lemma GetAllGPUs_run s st c w' :
  native_GetCount L (world s) = (st, c, w') ->
  (st <> NVML_SUCCESS
   /\ GetAllGPUs L s
      = (Fatal "nvmlDeviceGetCount failed", mkSt w' (calls s ++ [mkEvent CallGetCount st])))
  \/
  (st = NVML_SUCCESS
   /\ exists devices err s' evs,
       GetAllGPUs L s = (Returned (devices, err), s')
       /\ calls s' = calls s ++ evs
       /\ (err <> None -> devices = [])
       /\ (forall i st',
             In (mkEvent (CallGetHandleByIndex i) st') evs ->
             st' <> NVML_SUCCESS ->
             err = errors_New "nvmlDeviceGetHandleByIndex returns error")
       /\ (C_uint c = 0 ->
           err = errors_New "No devices found"
           /\ s' = mkSt w' (calls s ++ [mkEvent CallGetCount st]))).
Proof.
  intros Hrun.
  destruct (getAllDevices_run _ _ _ _ Hrun)
    as [[Hst Hfatal] | (Hst & cdevices & r & s1 & evs & Heq & Hcalls & Hok & Hzero)].
  - left. split; [exact Hst|].
    unfold GetAllGPUs. now rewrite (bind_fatal L _ _ _ _ _ Hfatal).
  - right. split; [exact Hst|].
    unfold GetAllGPUs. rewrite (bind_returned L _ _ _ _ _ Heq). cbv beta iota.
    destruct r as [e|].
    + exists [], (Some e), s1, evs.
      split; [reflexivity|]. split; [exact Hcalls|]. split; [reflexivity|].
      split.
      * intros i st' Hin Hst'.
        destruct (string_dec e "nvmlDeviceGetHandleByIndex returns error") as [->|Hne];
          [reflexivity|].
        exfalso. apply Hst'.
        assert (Hall : Forall (fun ev => ev_status ev = NVML_SUCCESS) evs)
          by (apply Hok; unfold errors_New; congruence).
        rewrite List.Forall_forall in Hall. exact (Hall _ Hin).
      * intros Hc. destruct (Hzero Hc) as (_ & Hr & Hs). auto.
    + destruct (GetAllGPUs_range_spec cdevices [] s1)
        as (devices & s2 & evs2 & Heq2 & Hcalls2 & Hno2).
      rewrite (bind_returned L _ _ _ _ _ Heq2).
      exists devices, None, s2, (evs ++ evs2).
      split; [reflexivity|].
      split; [rewrite Hcalls2, Hcalls; now rewrite <- app_assoc|].
      split; [congruence|].
      split.
      * intros i st' Hin Hst'. exfalso.
        apply in_app_or in Hin as [Hin|Hin].
        -- assert (Hall : Forall (fun ev => ev_status ev = NVML_SUCCESS) evs)
             by (apply Hok; discriminate).
           rewrite List.Forall_forall in Hall. exact (Hst' (Hall _ Hin)).
        -- rewrite List.Forall_forall in Hno2. specialize (Hno2 _ Hin).
           discriminate Hno2.
      * intros Hc. destruct (Hzero Hc) as (_ & Hr & _). discriminate Hr.
Qed.

(** An error of [GetAllGPUs] never comes with devices. *)
Lemma GetAllGPUs_error_without_devices s devices e s' :
  GetAllGPUs L s = (Returned (devices, Some e), s') -> devices = [].
Proof.
  intros H.
  destruct (native_GetCount L (world s)) as [[st c] w'] eqn:Hrun.
  destruct (GetAllGPUs_run _ _ _ _ Hrun)
    as [[_ Hfatal] | (_ & ds & err & s1 & evs & Heq & _ & Hnil & _)].
  - rewrite Hfatal in H. discriminate H.
  - rewrite Heq in H. injection H as -> -> _. apply Hnil. discriminate.
Qed.

(** C5: when a native handle lookup made by [GetAllGPUs] comes back with
    a non-success status, [GetAllGPUs] returns the error
    "nvmlDeviceGetHandleByIndex returns error" together with an empty
    sequence of devices: no [Device] is returned for any index. *)
Theorem C5_failed_handle_lookup_returns_no_device s i st :
  In (mkEvent (CallGetHandleByIndex i) st) (new_calls (GetAllGPUs L) s) ->
  st <> NVML_SUCCESS ->
  fst (GetAllGPUs L s)
  = Returned ([], errors_New "nvmlDeviceGetHandleByIndex returns error").
Proof.
  intros Hin Hst.
  destruct (native_GetCount L (world s)) as [[st0 c] w'] eqn:Hrun.
  destruct (GetAllGPUs_run _ _ _ _ Hrun)
    as [[_ Hfatal] | (_ & ds & err & s1 & evs & Heq & Hcalls & Hnil & Hlook & _)].
  - rewrite (new_calls_app L (GetAllGPUs L) s [mkEvent CallGetCount st0]) in Hin
      by (now rewrite Hfatal).
    destruct Hin as [Hin|[]]. discriminate Hin.
  - rewrite (new_calls_app L (GetAllGPUs L) s evs) in Hin by (now rewrite Heq).
    pose proof (Hlook _ _ Hin Hst) as Herr.
    rewrite Heq. simpl. rewrite Herr in *.
    rewrite Hnil by discriminate. reflexivity.
Qed.

(** Queries that go straight to the library come back to the caller. *)
Ltac direct_query run :=
  let st := fresh "st" in
  let out := fresh "out" in
  let w := fresh "w" in
  let Hrun := fresh "Hrun" in
  destruct run as [[st out] w] eqn:Hrun;
  rewrite (bind_returned L _ _ _ _ _ (invoke_run L _ _ _ _ _ _ Hrun));
  repeat match goal with
         | p : (_ * _)%type |- _ => destruct p
         end;
  cbv beta iota;
  destruct (st =? NVML_SUCCESS); simpl; unfold ret; eauto.

Lemma PowerState_returns gpu : returns (PowerState L gpu).
Proof.
  intros s. unfold PowerState.
  direct_query (native_GetPowerState L (nvmldevice gpu) (world s)).
Qed.

Lemma Temp_returns gpu : returns (Temp L gpu).
Proof.
  intros s. unfold Temp.
  direct_query (native_GetTemperature L (nvmldevice gpu) (NVML_TEMPERATURE_GPU L) (world s)).
Qed.

Lemma GetDecoderUtilization_returns gpu : returns (GetDecoderUtilization L gpu).
Proof.
  intros s. unfold GetDecoderUtilization.
  direct_query (native_GetDecoderUtilization L (nvmldevice gpu) (world s)).
Qed.

Lemma GetEncoderUtilization_returns gpu : returns (GetEncoderUtilization L gpu).
Proof.
  intros s. unfold GetEncoderUtilization.
  direct_query (native_GetEncoderUtilization L (nvmldevice gpu) (world s)).
Qed.

Lemma GetUtilizationRates_returns gpu : returns (GetUtilizationRates L gpu).
Proof.
  intros s. unfold GetUtilizationRates.
  direct_query (native_GetUtilizationRates L (nvmldevice gpu) (world s)).
Qed.

Lemma MemoryInfo_returns gpu : returns (MemoryInfo L gpu).
Proof.
  intros s. unfold MemoryInfo.
  direct_query (native_GetMemoryInfo L (nvmldevice gpu) (world s)).
Qed.

Lemma MultiGpuBoard_returns gpu : returns (MultiGpuBoard L gpu).
Proof.
  intros s. unfold MultiGpuBoard.
  destruct (intProperty_returns L gpu "MultiGpuBoard" s) as (p & err & s' & Heq & _).
  rewrite (bind_returned L _ _ _ _ _ Heq).
  destruct (go_int p =? 0); eauto.
Qed.

Lemma intProperty_comes_back gpu property : returns (intProperty L gpu property).
Proof.
  intros s. destruct (intProperty_returns L gpu property s) as (p & err & s' & Heq & _).
  eauto.
Qed.

Lemma textProperty_comes_back gpu property : returns (textProperty L gpu property).
Proof.
  intros s. destruct (textProperty_returns L gpu property s) as (v & err & s' & Heq).
  eauto.
Qed.

Lemma NewDevice_returns cdevice : returns (NewDevice L cdevice).
Proof.
  intros s. destruct (NewDevice_runs L cdevice s) as (r & s' & Heq & _). eauto.
Qed.

Lemma nvmlDeviceGetCount_returns : returns (nvmlDeviceGetCount L).
Proof.
  intros s. destruct (native_GetCount L (world s)) as [[st c] w'] eqn:Hrun.
  rewrite (nvmlDeviceGetCount_run _ _ _ _ Hrun). eauto.
Qed.

(** C10: when the native count query fails, [GetAllGPUs] does not return:
    the process ends in [log.Fatal] with "nvmlDeviceGetCount failed".
    This is the only way the layer ends the process: [GetAllGPUs] is fatal
    only when the count query failed and returns otherwise, and every
    other operation of the layer returns to its caller.  When the count
    query succeeds with a count of zero, [GetAllGPUs] returns the error
    "No devices found" after that single native call. *)
Theorem C10_count_failure_is_the_only_fatal_path s :
  (forall st c w',
      native_GetCount L (world s) = (st, c, w') ->
      st <> NVML_SUCCESS ->
      GetAllGPUs L s
      = (Fatal "nvmlDeviceGetCount failed",
         mkSt w' (calls s ++ [mkEvent CallGetCount st])))
  /\
  (forall st c w',
      native_GetCount L (world s) = (st, c, w') ->
      st = NVML_SUCCESS ->
      exists r s', GetAllGPUs L s = (Returned r, s'))
  /\
  (forall st c w',
      native_GetCount L (world s) = (st, c, w') ->
      st = NVML_SUCCESS ->
      C_uint c = 0 ->
      GetAllGPUs L s
      = (Returned ([], errors_New "No devices found"),
         mkSt w' (calls s ++ [mkEvent CallGetCount st])))
  /\
  (forall gpu property,
      returns (intProperty L gpu property) /\ returns (textProperty L gpu property))
  /\
  (forall gpu,
      returns (PowerState L gpu) /\ returns (Temp L gpu)
      /\ returns (GetDecoderUtilization L gpu) /\ returns (GetEncoderUtilization L gpu)
      /\ returns (GetUtilizationRates L gpu) /\ returns (MultiGpuBoard L gpu)
      /\ returns (MemoryInfo L gpu))
  /\
  (forall cdevice, returns (NewDevice L cdevice))
  /\
  returns (nvmlDeviceGetCount L).
Proof.
  split; [|split; [|split]].
  - intros st c w' Hrun Hst.
    destruct (GetAllGPUs_run _ _ _ _ Hrun) as [[_ Hfatal] | [Hok _]];
      [exact Hfatal | contradiction].
  - intros st c w' Hrun Hst.
    destruct (GetAllGPUs_run _ _ _ _ Hrun)
      as [[Hne _] | (_ & ds & err & s' & evs & Heq & _)]; [contradiction|].
    eauto.
  - intros st c w' Hrun Hst Hzero.
    destruct (GetAllGPUs_run _ _ _ _ Hrun)
      as [[Hne _] | (_ & ds & err & s' & evs & Heq & _ & Hnil & _ & Hz)]; [contradiction|].
    destruct (Hz Hzero) as [-> ->].
    rewrite Hnil in Heq by discriminate. exact Heq.
  - split; [|split; [|split]].
    + intros gpu property.
      split; [apply intProperty_comes_back | apply textProperty_comes_back].
    + intros gpu.
      repeat split;
        [ apply PowerState_returns | apply Temp_returns
        | apply GetDecoderUtilization_returns | apply GetEncoderUtilization_returns
        | apply GetUtilizationRates_returns | apply MultiGpuBoard_returns
        | apply MemoryInfo_returns ].
    + apply NewDevice_returns.
    + apply nvmlDeviceGetCount_returns.
Qed.

End Enumeration.

(** ** Further properties of the dispatchers *)

Section Dispatchers.

Variable L : NativeLayer.
Implicit Types (gpu : Device) (s : St L) (property : string).

Lemma intProperty_new_calls gpu property ipf s :
  intpropfunctions !! property = Some ipf ->
  exists st,
    new_calls (intProperty L gpu property) s
    = [mkEvent (CallInt (ipf_f ipf) (nvmldevice gpu)) st].
Proof.
  intros Hreg.
  destruct (native_int L (ipf_f ipf) (nvmldevice gpu) (world s)) as [[st v] w'] eqn:Hrun.
  exists st. apply new_calls_app.
  now rewrite (intProperty_present L _ _ _ _ _ _ _ Hreg Hrun).
Qed.

Lemma textProperty_new_calls gpu property tpf s :
  textpropfunctions L !! property = Some tpf ->
  exists st,
    new_calls (textProperty L gpu property) s
    = [mkEvent (CallText (tpf_f tpf) (nvmldevice gpu) (tpf_length tpf)) st].
Proof.
  intros Hreg.
  destruct (native_text L (tpf_f tpf) (nvmldevice gpu) (tpf_length tpf) (world s))
    as [[st buf] w'] eqn:Hrun.
  exists st. apply new_calls_app.
  now rewrite (textProperty_present L _ _ _ _ _ _ _ Hreg Hrun).
Qed.

(** X1: for a registered name, when the native accessor succeeds and
    leaves a value of the [C.uint] range in the output slot, [intProperty]
    returns exactly that value and a [nil] error. *)
Theorem X1_intProperty_returns_native_value gpu property ipf s st v w' :
  intpropfunctions !! property = Some ipf ->
  native_int L (ipf_f ipf) (nvmldevice gpu) (world s) = (st, v, w') ->
  st = NVML_SUCCESS ->
  0 <= v < 2 ^ 32 ->
  fst (intProperty L gpu property s) = Returned (v, None).
Proof.
  intros Hreg Hrun -> Hv.
  rewrite (intProperty_present L _ _ _ _ _ _ _ Hreg Hrun). simpl.
  unfold C_uint. now rewrite Z.mod_small by lia.
Qed.

(** X2: the errors of the dispatchers form a closed set, and an error
    always comes with the zero value.  [intProperty] returns a [nil]
    error, or 0 with "property not found" or "getintProperty bridge
    returned error".  [textProperty] returns a non-empty string with a
    [nil] error, or the empty string with "property not found",
    "gettextProperty bridge returned error" or "textProperty returned
    empty string". *)
Theorem X2_dispatcher_errors_are_closed gpu property s :
  (exists p err s',
      intProperty L gpu property s = (Returned (p, err), s')
      /\ (err = None
          \/ (p = 0
              /\ (err = errors_New "property not found"
                  \/ err = errors_New "getintProperty bridge returned error"))))
  /\
  (exists v err s',
      textProperty L gpu property s = (Returned (v, err), s')
      /\ ((err = None /\ v <> "")
          \/ (v = ""
              /\ (err = errors_New "property not found"
                  \/ err = errors_New "gettextProperty bridge returned error"
                  \/ err = errors_New "textProperty returned empty string")))).
Proof.
  split.
  - destruct (intpropfunctions !! property) as [ipf|] eqn:Hreg.
    + destruct (native_int L (ipf_f ipf) (nvmldevice gpu) (world s))
        as [[st v] w'] eqn:Hrun.
      rewrite (intProperty_present L _ _ _ _ _ _ _ Hreg Hrun).
      destruct (st =? NVML_SUCCESS); eexists _, _, _; (split; [reflexivity|]); auto.
    + rewrite (intProperty_absent L _ _ _ Hreg).
      eexists _, _, _; (split; [reflexivity|]); auto.
  - destruct (textpropfunctions L !! property) as [tpf|] eqn:Hreg.
    + destruct (native_text L (tpf_f tpf) (nvmldevice gpu) (tpf_length tpf) (world s))
        as [[st buf] w'] eqn:Hrun.
      rewrite (textProperty_present L _ _ _ _ _ _ _ Hreg Hrun).
      destruct (st =? NVML_SUCCESS).
      * destruct (len _ >? 0) eqn:Hlen; eexists _, _, _; (split; [reflexivity|]).
        -- left. split; [reflexivity|].
           intros Hv. rewrite Hv in Hlen. discriminate Hlen.
        -- right. auto.
      * eexists _, _, _; (split; [reflexivity|]). right. auto.
    + rewrite (textProperty_absent L _ _ _ Hreg).
      eexists _, _, _; (split; [reflexivity|]). right. auto.
Qed.

(** X3: a dispatcher makes exactly one native call for a registered
    name, with the accessor the registry holds for it, on the handle of
    the device, and for text with the declared buffer length: there is no
    retry and no second query. *)
Theorem X3_one_native_call_per_dispatch gpu property s :
  (forall ipf,
      intpropfunctions !! property = Some ipf ->
      exists st,
        new_calls (intProperty L gpu property) s
        = [mkEvent (CallInt (ipf_f ipf) (nvmldevice gpu)) st])
  /\
  (forall tpf,
      textpropfunctions L !! property = Some tpf ->
      exists st,
        new_calls (textProperty L gpu property) s
        = [mkEvent (CallText (tpf_f tpf) (nvmldevice gpu) (tpf_length tpf)) st]).
Proof.
  split; intros d Hreg;
    [exact (intProperty_new_calls gpu property d s Hreg)
    | exact (textProperty_new_calls gpu property d s Hreg)].
Qed.

Lemma int_accessor_new_calls gpu property f s :
  intpropfunctions !! property = Some (mkIntPropFunc f) ->
  exists st, new_calls (intProperty L gpu property) s
             = [mkEvent (CallInt f (nvmldevice gpu)) st].
Proof. intros Hreg. exact (intProperty_new_calls gpu property _ s Hreg). Qed.

Lemma text_accessor_new_calls gpu property f size s :
  textpropfunctions L !! property = Some (mkTextPropFunc f (C_uint size)) ->
  exists st, new_calls (textProperty L gpu property) s
             = [mkEvent (CallText f (nvmldevice gpu) (C_uint size)) st].
Proof. intros Hreg. exact (textProperty_new_calls gpu property _ s Hreg). Qed.

Lemma MultiGpuBoard_new_calls gpu s :
  new_calls (MultiGpuBoard L gpu) s = new_calls (intProperty L gpu "MultiGpuBoard") s.
Proof.
  unfold new_calls, MultiGpuBoard.
  destruct (intProperty_returns L gpu "MultiGpuBoard" s) as (p & err & s' & Heq & _).
  rewrite (bind_returned L _ _ _ _ _ Heq), Heq.
  now destruct (go_int p =? 0).
Qed.

(** X4: every public accessor reaches the native function it is named
    after.  Each of the fourteen integer accessors and [MultiGpuBoard]
    makes exactly one call, to its own native accessor, on the handle of
    the device; each of the five text accessors makes exactly one call, to
    its own native accessor, with the buffer size [nvml.h] declares for
    it.  So none of them can fail with "property not found". *)
Theorem X4_accessors_reach_their_native_function gpu s :
  Forall (fun '(acc, f) =>
            exists st, new_calls (acc gpu) s
                       = [mkEvent (CallInt f (nvmldevice gpu)) st])
         [ (Index L, nvmlDeviceGetIndex);
           (MinorNumber L, nvmlDeviceGetMinorNumber);
           (InforomConfigurationChecksum L, nvmlDeviceGetInforomConfigurationChecksum);
           (MaxPCIeLinkGeneration L, nvmlDeviceGetMaxPcieLinkGeneration);
           (MaxPCIeLinkWidth L, nvmlDeviceGetMaxPcieLinkWidth);
           (CurrPCIeLinkGeneration L, nvmlDeviceGetCurrPcieLinkGeneration);
           (CurrPCIeLinkWidth L, nvmlDeviceGetCurrPcieLinkWidth);
           (PCIeReplayCounter L, nvmlDeviceGetPcieReplayCounter);
           (FanSpeed L, nvmlDeviceGetFanSpeed);
           (PowerManagementLimit L, nvmlDeviceGetPowerManagementLimit);
           (PowerManagementDefaultLimit L, nvmlDeviceGetPowerManagementDefaultLimit);
           (PowerUsage L, nvmlDeviceGetPowerUsage);
           (EnforcedPowerLimit L, nvmlDeviceGetEnforcedPowerLimit);
           (BoardId L, nvmlDeviceGetBoardId) ]
  /\
  (exists st, new_calls (MultiGpuBoard L gpu) s
              = [mkEvent (CallInt nvmlDeviceGetMultiGpuBoard (nvmldevice gpu)) st])
  /\
  Forall (fun '(acc, f, size) =>
            exists st, new_calls (acc gpu) s
                       = [mkEvent (CallText f (nvmldevice gpu) (C_uint size)) st])
         [ (InforomImageVersion L, nvmlDeviceGetInforomImageVersion,
            NVML_DEVICE_INFOROM_VERSION_BUFFER_SIZE L);
           (VbiosVersion L, nvmlDeviceGetVbiosVersion,
            NVML_DEVICE_VBIOS_VERSION_BUFFER_SIZE L);
           (Name L, nvmlDeviceGetName, NVML_DEVICE_NAME_BUFFER_SIZE L);
           (UUID L, nvmlDeviceGetUUID, NVML_DEVICE_UUID_BUFFER_SIZE L);
           (Serial L, nvmlDeviceGetSerial, NVML_DEVICE_SERIAL_BUFFER_SIZE L) ].
Proof.
  split; [|split].
  - repeat (constructor; [apply int_accessor_new_calls; reflexivity|]).
    constructor.
  - rewrite MultiGpuBoard_new_calls.
    apply int_accessor_new_calls. reflexivity.
  - repeat (constructor; [apply text_accessor_new_calls; reflexivity|]).
    constructor.
Qed.

End Dispatchers.

(** ** Direct queries and the status translator *)

Section DirectQueries.

Variable L : NativeLayer.
Implicit Types (gpu : Device) (s : St L).

Lemma PowerState_run gpu s st v w' :
  native_GetPowerState L (nvmldevice gpu) (world s) = (st, v, w') ->
  PowerState L gpu s
  = (Returned (if st =? NVML_SUCCESS
               then (C_uint v, None)
               else (-1, errors_New "GetPowerState returned error")),
     mkSt w' (calls s ++ [mkEvent (CallGetPowerState (nvmldevice gpu)) st])).
Proof.
  intros Hrun. unfold PowerState.
  rewrite (bind_returned L _ _ _ _ _ (invoke_run L _ _ _ _ _ _ Hrun)).
  destruct (st =? NVML_SUCCESS); simpl; unfold ret; [|reflexivity].
  now rewrite (go_int_small _ (C_uint_range v)).
Qed.

Lemma Temp_run gpu s st v w' :
  native_GetTemperature L (nvmldevice gpu) (NVML_TEMPERATURE_GPU L) (world s) = (st, v, w') ->
  Temp L gpu s
  = (Returned (if st =? NVML_SUCCESS
               then (C_uint v, None)
               else (0, errors_New "GetPowerState returned error")),
     mkSt w' (calls s ++
              [mkEvent (CallGetTemperature (nvmldevice gpu) (NVML_TEMPERATURE_GPU L)) st])).
Proof.
  intros Hrun. unfold Temp.
  rewrite (bind_returned L _ _ _ _ _ (invoke_run L _ _ _ _ _ _ Hrun)).
  destruct (st =? NVML_SUCCESS); simpl; unfold ret; [|reflexivity].
  now rewrite go_uint_C_uint.
Qed.

Lemma MemoryInfo_run gpu s st free total used w' :
  native_GetMemoryInfo L (nvmldevice gpu) (world s) = (st, (free, total, used), w') ->
  MemoryInfo L gpu s
  = (Returned (if st =? NVML_SUCCESS
               then (mkNVMLMemory (go_uint free) (go_uint total) (go_uint used), None)
               else (mkNVMLMemory 0 0 0, errors_New "GetPowerState returned error")),
     mkSt w' (calls s ++ [mkEvent (CallGetMemoryInfo (nvmldevice gpu)) st])).
Proof.
  intros Hrun. unfold MemoryInfo.
  rewrite (bind_returned L _ _ _ _ _ (invoke_run L _ _ _ _ _ _ Hrun)).
  now destruct (st =? NVML_SUCCESS).
Qed.

(** X5: [PowerState] makes one native call and returns -1 exactly when it
    returns an error, which is exactly when the call did not succeed; a
    value returned without an error is the native one and lies in the
    [C.uint] range, so it is never mistaken for the -1 of a failure. *)
Theorem X5_PowerState_minus_one_iff_error gpu s :
  exists v err s' st,
    PowerState L gpu s = (Returned (v, err), s')
    /\ new_calls (PowerState L gpu) s = [mkEvent (CallGetPowerState (nvmldevice gpu)) st]
    /\ (err = None <-> st = NVML_SUCCESS)
    /\ (err <> None <-> v = -1)
    /\ (err = None ->
        v = C_uint (snd (fst (native_GetPowerState L (nvmldevice gpu) (world s))))
        /\ 0 <= v < 2 ^ 32).
Proof.
  destruct (native_GetPowerState L (nvmldevice gpu) (world s)) as [[st v] w'] eqn:Hrun.
  pose proof (PowerState_run gpu s st v w' Hrun) as Heq.
  pose proof (C_uint_range v) as Hv.
  destruct (st =? NVML_SUCCESS) eqn:Hst.
  - apply Z.eqb_eq in Hst.
    exists (C_uint v), None, (mkSt w' (calls s ++ [mkEvent (CallGetPowerState (nvmldevice gpu)) st])), st.
    split; [exact Heq|].
    split; [apply new_calls_app; now rewrite Heq|].
    split; [tauto|].
    split; [split; [congruence | lia]|].
    intros _. simpl. split; [reflexivity | exact Hv].
  - apply Z.eqb_neq in Hst.
    eexists (-1), _, _, st.
    split; [exact Heq|].
    split; [apply new_calls_app; now rewrite Heq|].
    unfold errors_New.
    split; [split; [discriminate | contradiction]|].
    split; [split; [reflexivity | discriminate]|].
    discriminate.
Qed.

(** X6: [Temp] makes one native call, for the sensor
    [NVML_TEMPERATURE_GPU]; on success it returns the native reading with
    a [nil] error, and on failure 0 with the error "GetPowerState
    returned error".  Since 0 is also a possible reading, only the error
    tells a failure apart. *)
Theorem X6_Temp_reading_or_error gpu s :
  exists v err s' st,
    Temp L gpu s = (Returned (v, err), s')
    /\ new_calls (Temp L gpu) s
       = [mkEvent (CallGetTemperature (nvmldevice gpu) (NVML_TEMPERATURE_GPU L)) st]
    /\ (err = None <-> st = NVML_SUCCESS)
    /\ (err <> None -> v = 0 /\ err = errors_New "GetPowerState returned error")
    /\ (err = None ->
        v = C_uint (snd (fst (native_GetTemperature L (nvmldevice gpu)
                                (NVML_TEMPERATURE_GPU L) (world s))))).
Proof.
  destruct (native_GetTemperature L (nvmldevice gpu) (NVML_TEMPERATURE_GPU L) (world s))
    as [[st v] w'] eqn:Hrun.
  pose proof (Temp_run gpu s st v w' Hrun) as Heq.
  destruct (st =? NVML_SUCCESS) eqn:Hst.
  - apply Z.eqb_eq in Hst.
    eexists (C_uint v), None, _, st.
    split; [exact Heq|].
    split; [apply new_calls_app; now rewrite Heq|].
    split; [tauto|]. split; [congruence|]. reflexivity.
  - apply Z.eqb_neq in Hst.
    eexists 0, _, _, st.
    split; [exact Heq|].
    split; [apply new_calls_app; now rewrite Heq|].
    unfold errors_New.
    split; [split; [discriminate | contradiction]|].
    split; [auto | discriminate].
Qed.

(** X7: [MemoryInfo] hands the three byte counts of the native record on
    unchanged, each to the field of the same name ([Free], [Total],
    [Used]), when the native call succeeds and they are 64-bit values;
    when the call fails it returns the zero record and the error
    "GetPowerState returned error".  Nothing checks that used and free add
    up to total. *)
Theorem X7_MemoryInfo_passes_the_record_on gpu s st free total used w' :
  native_GetMemoryInfo L (nvmldevice gpu) (world s) = (st, (free, total, used), w') ->
  0 <= free < 2 ^ 64 -> 0 <= total < 2 ^ 64 -> 0 <= used < 2 ^ 64 ->
  (st = NVML_SUCCESS ->
   fst (MemoryInfo L gpu s) = Returned (mkNVMLMemory free total used, None))
  /\
  (st <> NVML_SUCCESS ->
   fst (MemoryInfo L gpu s)
   = Returned (mkNVMLMemory 0 0 0, errors_New "GetPowerState returned error"))
  /\
  new_calls (MemoryInfo L gpu) s = [mkEvent (CallGetMemoryInfo (nvmldevice gpu)) st].
Proof.
  intros Hrun Hf Ht Hu.
  pose proof (MemoryInfo_run gpu s st free total used w' Hrun) as Heq.
  split; [|split].
  - intros ->. rewrite Heq. simpl. unfold go_uint.
    now rewrite !Z.mod_small by lia.
  - intros Hst. rewrite Heq. simpl. apply Z.eqb_neq in Hst. now rewrite Hst.
  - apply new_calls_app. now rewrite Heq.
Qed.

(** The three two-valued queries, by cases on the native status. *)
Lemma GetDecoderUtilization_run gpu s st a b w' :
  native_GetDecoderUtilization L (nvmldevice gpu) (world s) = (st, (a, b), w') ->
  GetDecoderUtilization L gpu s
  = (Returned (if st =? NVML_SUCCESS
               then (C_uint a, C_uint b, None)
               else (0, 0, errors_New "GetDecoderUtilization returned error")),
     mkSt w' (calls s ++ [mkEvent (CallGetDecoderUtilization (nvmldevice gpu)) st])).
Proof.
  intros Hrun. unfold GetDecoderUtilization.
  rewrite (bind_returned L _ _ _ _ _ (invoke_run L _ _ _ _ _ _ Hrun)).
  destruct (st =? NVML_SUCCESS); simpl; unfold ret; [|reflexivity].
  now rewrite !go_uint_C_uint.
Qed.

Lemma GetEncoderUtilization_run gpu s st a b w' :
  native_GetEncoderUtilization L (nvmldevice gpu) (world s) = (st, (a, b), w') ->
  GetEncoderUtilization L gpu s
  = (Returned (if st =? NVML_SUCCESS
               then (C_uint a, C_uint b, None)
               else (0, 0, errors_New "GetEncoderUtilization returned error")),
     mkSt w' (calls s ++ [mkEvent (CallGetEncoderUtilization (nvmldevice gpu)) st])).
Proof.
  intros Hrun. unfold GetEncoderUtilization.
  rewrite (bind_returned L _ _ _ _ _ (invoke_run L _ _ _ _ _ _ Hrun)).
  destruct (st =? NVML_SUCCESS); simpl; unfold ret; [|reflexivity].
  now rewrite !go_uint_C_uint.
Qed.

Lemma GetUtilizationRates_run gpu s st a b w' :
  native_GetUtilizationRates L (nvmldevice gpu) (world s) = (st, (a, b), w') ->
  GetUtilizationRates L gpu s
  = (Returned (if st =? NVML_SUCCESS
               then (C_uint a, C_uint b, None)
               else (0, 0, errors_New "GetUtilizationRates returned error")),
     mkSt w' (calls s ++ [mkEvent (CallGetUtilizationRates (nvmldevice gpu)) st])).
Proof.
  intros Hrun. unfold GetUtilizationRates.
  rewrite (bind_returned L _ _ _ _ _ (invoke_run L _ _ _ _ _ _ Hrun)).
  destruct (st =? NVML_SUCCESS); simpl; unfold ret; [|reflexivity].
  now rewrite !go_uint_C_uint.
Qed.

(** X8: [GetDecoderUtilization], [GetEncoderUtilization] and
    [GetUtilizationRates] each make one native call, to their own native
    function.  On success the two [C.uint] values come back in the order
    the library wrote them, with a [nil] error; on failure both values are
    0 and the error names the function that failed. *)
Theorem X8_utilization_pairs_keep_their_order gpu s a b :
  0 <= a < 2 ^ 32 -> 0 <= b < 2 ^ 32 ->
  (forall st w',
      native_GetDecoderUtilization L (nvmldevice gpu) (world s) = (st, (a, b), w') ->
      GetDecoderUtilization L gpu s
      = (Returned (if st =? NVML_SUCCESS
                   then (a, b, None)
                   else (0, 0, errors_New "GetDecoderUtilization returned error")),
         mkSt w' (calls s ++ [mkEvent (CallGetDecoderUtilization (nvmldevice gpu)) st])))
  /\
  (forall st w',
      native_GetEncoderUtilization L (nvmldevice gpu) (world s) = (st, (a, b), w') ->
      GetEncoderUtilization L gpu s
      = (Returned (if st =? NVML_SUCCESS
                   then (a, b, None)
                   else (0, 0, errors_New "GetEncoderUtilization returned error")),
         mkSt w' (calls s ++ [mkEvent (CallGetEncoderUtilization (nvmldevice gpu)) st])))
  /\
  (forall st w',
      native_GetUtilizationRates L (nvmldevice gpu) (world s) = (st, (a, b), w') ->
      GetUtilizationRates L gpu s
      = (Returned (if st =? NVML_SUCCESS
                   then (a, b, None)
                   else (0, 0, errors_New "GetUtilizationRates returned error")),
         mkSt w' (calls s ++ [mkEvent (CallGetUtilizationRates (nvmldevice gpu)) st]))).
Proof.
  intros Ha Hb.
  assert (Ea : C_uint a = a) by (unfold C_uint; now rewrite Z.mod_small by lia).
  assert (Eb : C_uint b = b) by (unfold C_uint; now rewrite Z.mod_small by lia).
  split; [|split]; intros st w' Hrun.
  - rewrite (GetDecoderUtilization_run _ _ _ _ _ _ Hrun). now rewrite Ea, Eb.
  - rewrite (GetEncoderUtilization_run _ _ _ _ _ _ Hrun). now rewrite Ea, Eb.
  - rewrite (GetUtilizationRates_run _ _ _ _ _ _ Hrun). now rewrite Ea, Eb.
Qed.

(** X9: the status translator [Error] yields [nil] exactly for
    [NVML_SUCCESS].  For any other status it yields the message of the
    native library for that status, or "Error not found in nvml.h" when
    the library has none. *)
Theorem X9_Error_nil_iff_success gpu (cerror : nvmlReturn_t) :
  (Error L gpu cerror = None <-> cerror = NVML_SUCCESS)
  /\
  (cerror <> NVML_SUCCESS ->
   Error L gpu cerror
   = Some (match nvmlErrorString L cerror with
           | Some msg => msg
           | None => "Error not found in nvml.h"
           end)).
Proof.
  unfold Error.
  destruct (cerror =? NVML_SUCCESS) eqn:Hc.
  - apply Z.eqb_eq in Hc. split; [tauto | contradiction].
  - apply Z.eqb_neq in Hc.
    destruct (nvmlErrorString L cerror); unfold errors_New;
      (split; [split; [discriminate | contradiction] | reflexivity]).
Qed.

End DirectQueries.

(** ** Further properties of the enumeration *)

Section Handles.

Variable L : NativeLayer.
Implicit Types (gpu : Device) (s : St L) (cdevice : nvmlDevice_t).

Lemma lookup_calls_S (i : Z) (m : nat) :
  lookup_calls i (S m) = CallGetHandleByIndex i :: lookup_calls (i + 1) m.
Proof.
  unfold lookup_calls. simpl. rewrite Z.add_0_r. f_equal.
  rewrite <- seq_shift, map_map.
  apply map_ext. intros j. f_equal. lia.
Qed.

(** The handle loop asks for the indices [i], [i + 1], ... in turn and stops
    at the first lookup that fails; the handles it returns are those of
    the lookups that succeeded. *)
Lemma getAllDevices_for_trace (n : nat) : forall i devices s,
  0 <= i -> i + Z.of_nat n <= 2 ^ 32 ->
  exists devices' r s' evs m,
    getAllDevices_for L n i devices s = (Returned (devices', r), s')
    /\ calls s' = calls s ++ evs
    /\ (m <= n)%nat
    /\ map ev_call evs = lookup_calls i m
    /\ (r = None ->
        m = n /\ length devices' = (length devices + n)%nat
        /\ Forall (fun ev => ev_status ev = NVML_SUCCESS) evs)
    /\ (r <> None ->
        r = errors_New "nvmlDeviceGetHandleByIndex returns error"
        /\ (length devices' + 1 = length devices + m)%nat
        /\ exists front ev,
            evs = front ++ [ev]
            /\ Forall (fun ev => ev_status ev = NVML_SUCCESS) front
            /\ ev_status ev <> NVML_SUCCESS).
Proof.
  induction n as [|n IH]; intros i devices s Hi Hn.
  - exists devices, None, s, [], O. simpl.
    split; [reflexivity|]. split; [now rewrite app_nil_r|].
    split; [lia|]. split; [reflexivity|].
    split; [|congruence].
    intros _. split; [reflexivity|]. split; [lia | constructor].
  - assert (Ei : C_uint i = i) by (unfold C_uint; apply Z.mod_small; lia).
    destruct (native_GetHandleByIndex L (C_uint i) (world s)) as [[st device] w'] eqn:Hrun.
    simpl. rewrite (bind_returned L _ _ _ _ _ (invoke_run L _ _ _ _ _ _ Hrun)).
    rewrite Ei.
    destruct (st =? NVML_SUCCESS) eqn:Hst; simpl.
    + apply Z.eqb_eq in Hst.
      destruct (IH (i + 1) (devices ++ [device])
                   (mkSt w' (calls s ++ [mkEvent (CallGetHandleByIndex i) st]))
                   ltac:(lia) ltac:(lia))
        as (devices' & r & s' & evs & m & Heq & Hcalls & Hm & Hmap & Hok & Herr).
      exists devices', r, s', (mkEvent (CallGetHandleByIndex i) st :: evs), (S m).
      split; [exact Heq|].
      split; [rewrite Hcalls; simpl; now rewrite <- app_assoc|].
      split; [lia|].
      split; [rewrite lookup_calls_S; simpl; now rewrite Hmap|].
      split.
      * intros Hr. destruct (Hok Hr) as (-> & Hlen & Hall).
        split; [reflexivity|].
        split; [rewrite Hlen, length_app; simpl; lia|].
        constructor; assumption.
      * intros Hr. destruct (Herr Hr) as (-> & Hlen & front & ev & -> & Hfront & Hev).
        split; [reflexivity|].
        split; [rewrite length_app in Hlen; simpl in Hlen; lia|].
        exists (mkEvent (CallGetHandleByIndex i) st :: front), ev.
        split; [reflexivity|]. split; [constructor; assumption | exact Hev].
    + apply Z.eqb_neq in Hst.
      eexists devices, _, _, [mkEvent (CallGetHandleByIndex i) st], 1%nat.
      split; [reflexivity|]. split; [reflexivity|].
      split; [lia|].
      split; [rewrite lookup_calls_S; reflexivity|].
      split; [discriminate|].
      intros _. split; [reflexivity|]. split; [lia|].
      exists [], (mkEvent (CallGetHandleByIndex i) st).
      split; [reflexivity|]. split; [constructor | exact Hst].
Qed.

(** [getAllDevices] after a successful count query. *)
Lemma getAllDevices_trace s st c w' :
  native_GetCount L (world s) = (st, c, w') ->
  st = NVML_SUCCESS ->
  exists devices r s' evs m,
    getAllDevices L s = (Returned (devices, r), s')
    /\ calls s' = calls s ++ mkEvent CallGetCount st :: evs
    /\ (m <= Z.to_nat (C_uint c))%nat
    /\ map ev_call evs = lookup_calls 0 m
    /\ (r = None ->
        m = Z.to_nat (C_uint c) /\ length devices = m /\ (0 < m)%nat)
    /\ (r = errors_New "No devices found" -> C_uint c = 0 /\ devices = [] /\ m = O)
    /\ (r = errors_New "nvmlDeviceGetHandleByIndex returns error" ->
        (length devices + 1 = m)%nat
        /\ exists front ev,
            evs = front ++ [ev]
            /\ Forall (fun ev => ev_status ev = NVML_SUCCESS) front
            /\ ev_status ev <> NVML_SUCCESS)
    /\ (r = None \/ r = errors_New "No devices found"
        \/ r = errors_New "nvmlDeviceGetHandleByIndex returns error").
Proof.
  intros Hrun ->. unfold getAllDevices.
  rewrite (bind_returned L _ _ _ _ _ (nvmlDeviceGetCount_run L _ _ _ _ Hrun)).
  simpl (NVML_SUCCESS =? NVML_SUCCESS). cbv beta iota.
  erewrite (bind_returned L (ret tt)) by reflexivity.
  pose proof (C_uint_range c) as Hc.
  destruct (getAllDevices_for_trace (Z.to_nat (C_uint c)) 0 []
              (mkSt w' (calls s ++ [mkEvent CallGetCount NVML_SUCCESS]))
              ltac:(lia) ltac:(lia))
    as (devices & r & s' & evs & m & Heq & Hcalls & Hm & Hmap & Hok & Herr).
  rewrite (bind_returned L _ _ _ _ _ Heq).
  assert (Hcalls' : calls s' = calls s ++ mkEvent CallGetCount NVML_SUCCESS :: evs)
    by (rewrite Hcalls; simpl; now rewrite <- app_assoc).
  destruct r as [e|].
  - destruct (Herr ltac:(discriminate)) as (He & Hlen & Hlast).
    exists devices, (Some e), s', evs, m.
    split; [reflexivity|]. split; [exact Hcalls'|]. split; [exact Hm|].
    split; [exact Hmap|].
    split; [discriminate|].
    split; [rewrite He; unfold errors_New; intros H; discriminate H|].
    split; [intros _; simpl in Hlen; split; [lia | exact Hlast]|].
    right. right. exact He.
  - destruct (Hok eq_refl) as (-> & Hlen & Hall). simpl in Hlen.
    destruct (Z.of_nat (length devices) =? 0) eqn:Hempty.
    + apply Z.eqb_eq in Hempty.
      exists devices, (errors_New "No devices found"), s', evs, (Z.to_nat (C_uint c)).
      split; [reflexivity|]. split; [exact Hcalls'|]. split; [lia|].
      split; [exact Hmap|].
      split; [discriminate|].
      split.
      * intros _. split; [lia|]. split; [|lia].
        destruct devices; [reflexivity | simpl in Hempty; lia].
      * split; [unfold errors_New; intros H; discriminate H|]. right. left. reflexivity.
    + apply Z.eqb_neq in Hempty.
      exists devices, None, s', evs, (Z.to_nat (C_uint c)).
      split; [reflexivity|]. split; [exact Hcalls'|]. split; [lia|].
      split; [exact Hmap|].
      split; [intros _; split; [reflexivity|]; split; lia|].
      split; [discriminate|]. split; [discriminate|]. left. reflexivity.
Qed.

(** The handle loop hands back the handles the library gave out, in the
    order of the lookups. *)
Lemma getAllDevices_for_handles (n : nat) : forall i devices s,
  0 <= i -> i + Z.of_nat n <= 2 ^ 32 ->
  exists hs r s' wk,
    getAllDevices_for L n i devices s = (Returned (devices ++ hs, r), s')
    /\ LooksUp L (world s) i hs wk
    /\ (r = None -> world s' = wk)
    /\ (r <> None ->
        exists st' h',
          native_GetHandleByIndex L (i + Z.of_nat (length hs)) wk = (st', h', world s')
          /\ st' <> NVML_SUCCESS).
Proof.
  induction n as [|n IH]; intros i devices s Hi Hn.
  - exists [], None, s, (world s). simpl. rewrite app_nil_r.
    split; [reflexivity|]. split; [constructor|]. split; [reflexivity | congruence].
  - assert (Ei : C_uint i = i) by (unfold C_uint; apply Z.mod_small; lia).
    destruct (native_GetHandleByIndex L (C_uint i) (world s)) as [[st device] w'] eqn:Hrun.
    simpl. rewrite (bind_returned L _ _ _ _ _ (invoke_run L _ _ _ _ _ _ Hrun)).
    rewrite Ei in *.
    destruct (st =? NVML_SUCCESS) eqn:Hst; simpl.
    + apply Z.eqb_eq in Hst. subst st.
      destruct (IH (i + 1) (devices ++ [device])
                   (mkSt w' (calls s ++ [mkEvent (CallGetHandleByIndex i) NVML_SUCCESS]))
                   ltac:(lia) ltac:(lia))
        as (hs & r & s' & wk & Heq & Hlook & Hok & Herr).
      exists (device :: hs), r, s', wk.
      split; [rewrite Heq, <- app_assoc; reflexivity|].
      split; [exact (LooksUp_cons L _ _ _ _ _ _ Hrun Hlook)|].
      split; [exact Hok|].
      intros Hr. destruct (Herr Hr) as (st' & h' & Hfail & Hst').
      exists st', h'. split; [|exact Hst'].
      simpl length. rewrite <- Hfail. f_equal. lia.
    + apply Z.eqb_neq in Hst.
      eexists [], _, _, (world s). rewrite app_nil_r.
      split; [reflexivity|]. split; [constructor|]. split; [discriminate|].
      intros _. exists st, device. simpl. rewrite Z.add_0_r. split; [exact Hrun | exact Hst].
Qed.

(** Conversely, the handle loop walks through lookups that succeed. *)
Lemma getAllDevices_for_looks_up w i hs wk :
  LooksUp L w i hs wk ->
  forall n devices log,
    0 <= i -> i + Z.of_nat (length hs) <= 2 ^ 32 ->
    getAllDevices_for L (length hs + n) i devices (mkSt w log)
    = getAllDevices_for L n (i + Z.of_nat (length hs)) (devices ++ hs)
        (mkSt wk (log ++ succeeded (lookup_calls i (length hs)))).
Proof.
  induction 1 as [w i|w i h w1 hs w2 Hrun _ IH]; intros n devices log Hi Hn.
  - simpl. now rewrite Z.add_0_r, !app_nil_r.
  - simpl length in *.
    assert (Ei : C_uint i = i) by (unfold C_uint; apply Z.mod_small; lia).
    rewrite lookup_calls_S.
    change (S (length hs) + n)%nat with (S (length hs + n)).
    cbn [getAllDevices_for]. rewrite Ei.
    rewrite (bind_returned L _ _ _ _ _
               (invoke_run L (CallGetHandleByIndex i) (native_GetHandleByIndex L i)
                           (mkSt w log) _ _ _ Hrun)).
    cbv beta iota. simpl (negb _). cbv iota. cbn [world calls].
    rewrite (IH n (devices ++ [h]) (log ++ [mkEvent (CallGetHandleByIndex i) NVML_SUCCESS])
                ltac:(lia) ltac:(lia)).
    unfold succeeded. cbn [map].
    rewrite <- !app_assoc. cbn [app].
    replace (i + 1 + Z.of_nat (length hs)) with (i + Z.of_nat (S (length hs))) by lia.
    reflexivity.
Qed.

(** [getAllDevices] after a successful count query: the handles. *)
Lemma getAllDevices_handles s st c w' :
  native_GetCount L (world s) = (st, c, w') ->
  st = NVML_SUCCESS ->
  exists devices r s' wk,
    getAllDevices L s = (Returned (devices, r), s')
    /\ LooksUp L w' 0 devices wk
    /\ (r <> errors_New "nvmlDeviceGetHandleByIndex returns error" -> world s' = wk)
    /\ (r = errors_New "nvmlDeviceGetHandleByIndex returns error" ->
        exists st' h',
          native_GetHandleByIndex L (Z.of_nat (length devices)) wk = (st', h', world s')
          /\ st' <> NVML_SUCCESS).
Proof.
  intros Hrun ->. unfold getAllDevices.
  rewrite (bind_returned L _ _ _ _ _ (nvmlDeviceGetCount_run L _ _ _ _ Hrun)).
  simpl (NVML_SUCCESS =? NVML_SUCCESS). cbv beta iota.
  erewrite (bind_returned L (ret tt)) by reflexivity.
  pose proof (C_uint_range c) as Hc.
  destruct (getAllDevices_for_handles (Z.to_nat (C_uint c)) 0 []
              (mkSt w' (calls s ++ [mkEvent CallGetCount NVML_SUCCESS]))
              ltac:(lia) ltac:(lia))
    as (hs & r & s' & wk & Heq & Hlook & Hok & Herr).
  simpl in Heq, Hlook. rewrite (bind_returned L _ _ _ _ _ Heq).
  destruct r as [e|].
  - destruct (getAllDevices_for_spec L (Z.to_nat (C_uint c)) 0 []
                (mkSt w' (calls s ++ [mkEvent CallGetCount NVML_SUCCESS])))
      as (d0 & r0 & s0 & evs & Heq0 & _ & _ & _ & He).
    rewrite Heq in Heq0. injection Heq0 as <- <- <-.
    rewrite (He ltac:(discriminate)).
    exists hs, (errors_New "nvmlDeviceGetHandleByIndex returns error"), s', wk.
    split; [reflexivity|]. split; [exact Hlook|].
    split; [intros Hne; now contradiction Hne|].
    intros _. exact (Herr ltac:(discriminate)).
  - destruct (Z.of_nat (length hs) =? 0);
      eexists hs, _, s', wk;
      (split; [reflexivity|]); (split; [exact Hlook|]);
      (split; [intros _; exact (Hok eq_refl)|]);
      unfold errors_New; intros H; discriminate H.
Qed.

(** X10: after a successful count query, [getAllDevices] asks for the
    handles of the indices 0, 1, 2, ... in this order, each once, and
    never for an index at or beyond the count.  The handles it returns
    are the ones the library handed out for these indices, in index
    order.  It returns without an error exactly when the count is
    positive and the lookup of every index below it succeeds, and then
    returns one handle per index; it returns "No devices found" exactly
    when the count is 0, and then makes no lookup. *)
Theorem X10_getAllDevices_looks_up_indices_in_order s st c w' :
  native_GetCount L (world s) = (st, c, w') ->
  st = NVML_SUCCESS ->
  (exists devices r s' m wk,
      getAllDevices L s = (Returned (devices, r), s')
      /\ (m <= Z.to_nat (C_uint c))%nat
      /\ map ev_call (new_calls (getAllDevices L) s) = CallGetCount :: lookup_calls 0 m
      /\ LooksUp L w' 0 devices wk
      /\ (r = None ->
          m = Z.to_nat (C_uint c) /\ length devices = m /\ (0 < m)%nat
          /\ world s' = wk)
      /\ (r = errors_New "No devices found" <-> C_uint c = 0)
      /\ (C_uint c = 0 ->
          devices = [] /\ m = O
          /\ s' = mkSt w' (calls s ++ [mkEvent CallGetCount st]))
      /\ (r = None \/ r = errors_New "No devices found"
          \/ r = errors_New "nvmlDeviceGetHandleByIndex returns error"))
  /\
  (forall hs wk,
      LooksUp L w' 0 hs wk ->
      length hs = Z.to_nat (C_uint c) ->
      hs <> [] ->
      getAllDevices L s
      = (Returned (hs, None),
         mkSt wk (calls s ++ mkEvent CallGetCount st
                          :: succeeded (lookup_calls 0 (length hs))))).
Proof.
  intros Hrun Hst. split.
  - destruct (getAllDevices_trace s st c w' Hrun Hst)
      as (devices & r & s' & evs & m & Heq & Hcalls & Hm & Hmap & Hok & Hnone & Hfail & Hr).
    destruct (getAllDevices_handles s st c w' Hrun Hst)
      as (devices0 & r0 & s0 & wk & Heq0 & Hlook & Hworld & _).
    rewrite Heq in Heq0. injection Heq0 as <- <- <-.
    assert (Hzero : C_uint c = 0 -> r = errors_New "No devices found").
    { intros Hc. rewrite Hc in Hm. simpl in Hm.
      destruct Hr as [Hr|[Hr|Hr]]; [|exact Hr|].
      - destruct (Hok Hr) as (_ & _ & Hpos). lia.
      - destruct (Hfail Hr) as (Hlen & _). lia. }
    exists devices, r, s', m, wk.
    split; [exact Heq|]. split; [exact Hm|].
    split.
    { rewrite (new_calls_app L (getAllDevices L) s (mkEvent CallGetCount st :: evs))
        by (now rewrite Heq).
      simpl. now rewrite Hmap. }
    split; [exact Hlook|].
    split.
    { intros Hr0. destruct (Hok Hr0) as (H1 & H2 & H3).
      split; [exact H1|]. split; [exact H2|]. split; [exact H3|].
      apply Hworld. rewrite Hr0. discriminate. }
    split; [split; [intros H; now destruct (Hnone H) | exact Hzero]|].
    split; [|exact Hr].
    intros Hc. destruct (Hnone (Hzero Hc)) as (_ & -> & ->).
    split; [reflexivity|]. split; [reflexivity|].
    destruct s' as [ws cs]. simpl in Hcalls.
    assert (evs = []) as -> by (destruct evs; [reflexivity | discriminate Hmap]).
    rewrite Hcalls. f_equal.
    inversion Hlook; subst.
    apply Hworld. rewrite (Hzero Hc). unfold errors_New. intros H. discriminate H.
  - intros hs wk Hlook Hlen Hne. subst st.
    pose proof (C_uint_range c) as Hc.
    unfold getAllDevices.
    rewrite (bind_returned L _ _ _ _ _ (nvmlDeviceGetCount_run L _ _ _ _ Hrun)).
    simpl (NVML_SUCCESS =? NVML_SUCCESS). cbv beta iota.
    erewrite (bind_returned L (ret tt)) by reflexivity.
    assert (Hloop : getAllDevices_for L (Z.to_nat (C_uint c)) 0 []
                      (mkSt w' (calls s ++ [mkEvent CallGetCount NVML_SUCCESS]))
                    = (Returned (hs, None),
                       mkSt wk ((calls s ++ [mkEvent CallGetCount NVML_SUCCESS])
                                ++ succeeded (lookup_calls 0 (length hs))))).
    { rewrite <- Hlen.
      replace (length hs) with (length hs + 0)%nat at 1 by lia.
      rewrite (getAllDevices_for_looks_up _ _ _ _ Hlook 0%nat [] _ ltac:(lia) ltac:(lia)).
      reflexivity. }
    rewrite (bind_returned L _ _ _ _ _ Hloop). cbv beta iota.
    destruct hs as [|h hs]; [now contradiction Hne|].
    simpl length. rewrite <- app_assoc. reflexivity.
Qed.

(** X11: when, after a successful count query, the lookups of the first
    indices succeed and the next one, still below the count, fails,
    [getAllDevices] stops there: it returns the error
    "nvmlDeviceGetHandleByIndex returns error" together with the handles
    the library handed out before, in index order (none when index 0
    fails), the failed lookup is its last native call, and no later index
    is asked for.  Conversely, that error is returned only in this
    way. *)
Theorem X11_getAllDevices_returns_partial_handles s st c w' :
  native_GetCount L (world s) = (st, c, w') ->
  st = NVML_SUCCESS ->
  (forall hs wk st' h' wf,
      LooksUp L w' 0 hs wk ->
      Z.of_nat (length hs) < C_uint c ->
      native_GetHandleByIndex L (Z.of_nat (length hs)) wk = (st', h', wf) ->
      st' <> NVML_SUCCESS ->
      getAllDevices L s
      = (Returned (hs, errors_New "nvmlDeviceGetHandleByIndex returns error"),
         mkSt wf (calls s ++ mkEvent CallGetCount st
                          :: succeeded (lookup_calls 0 (length hs))
                          ++ [mkEvent (CallGetHandleByIndex (Z.of_nat (length hs))) st'])))
  /\
  (forall devices s',
      getAllDevices L s
      = (Returned (devices, errors_New "nvmlDeviceGetHandleByIndex returns error"), s') ->
      exists wk st' h',
        LooksUp L w' 0 devices wk
        /\ Z.of_nat (length devices) < C_uint c
        /\ native_GetHandleByIndex L (Z.of_nat (length devices)) wk = (st', h', world s')
        /\ st' <> NVML_SUCCESS).
Proof.
  intros Hrun Hst. pose proof (C_uint_range c) as Hc. split.
  - intros hs wk st' h' wf Hlook Hlen Hfail Hst'. subst st.
    unfold getAllDevices.
    rewrite (bind_returned L _ _ _ _ _ (nvmlDeviceGetCount_run L _ _ _ _ Hrun)).
    simpl (NVML_SUCCESS =? NVML_SUCCESS). cbv beta iota.
    erewrite (bind_returned L (ret tt)) by reflexivity.
    assert (Hloop : getAllDevices_for L (Z.to_nat (C_uint c)) 0 []
                      (mkSt w' (calls s ++ [mkEvent CallGetCount NVML_SUCCESS]))
                    = (Returned (hs, errors_New "nvmlDeviceGetHandleByIndex returns error"),
                       mkSt wf ((calls s ++ [mkEvent CallGetCount NVML_SUCCESS])
                                ++ succeeded (lookup_calls 0 (length hs))
                                ++ [mkEvent (CallGetHandleByIndex (Z.of_nat (length hs)))
                                            st']))).
    { replace (Z.to_nat (C_uint c))
        with (length hs + S (Z.to_nat (C_uint c) - length hs - 1))%nat by lia.
      rewrite (getAllDevices_for_looks_up _ _ _ _ Hlook _ [] _ ltac:(lia) ltac:(lia)).
      rewrite Z.add_0_l. cbn [getAllDevices_for app].
      assert (Ei : C_uint (Z.of_nat (length hs)) = Z.of_nat (length hs))
        by (unfold C_uint; apply Z.mod_small; lia).
      rewrite Ei.
      rewrite (bind_returned L _ _ _ _ _
                 (invoke_run L (CallGetHandleByIndex (Z.of_nat (length hs)))
                             (native_GetHandleByIndex L (Z.of_nat (length hs)))
                             (mkSt wk _) _ _ _ Hfail)).
      apply Z.eqb_neq in Hst'. cbv beta iota. rewrite Hst'. cbn [negb world calls].
      unfold ret. now rewrite <- !app_assoc. }
    rewrite (bind_returned L _ _ _ _ _ Hloop). cbv beta iota.
    rewrite <- app_assoc. reflexivity.
  - intros devices s' Hres.
    destruct (getAllDevices_trace s st c w' Hrun Hst)
      as (d1 & r1 & s1 & evs & m & Heq1 & _ & Hm & _ & _ & _ & Hfail & _).
    destruct (getAllDevices_handles s st c w' Hrun Hst)
      as (d2 & r2 & s2 & wk & Heq2 & Hlook & _ & Hlast).
    rewrite Hres in Heq1, Heq2.
    injection Heq1 as <- <- <-. injection Heq2 as <- <- <-.
    destruct (Hfail eq_refl) as (Hlen & _).
    destruct (Hlast eq_refl) as (st' & h' & Hnat & Hst').
    exists wk, st', h'.
    split; [exact Hlook|]. split; [lia|]. split; [exact Hnat | exact Hst'].
Qed.

End Handles.

Section Devices.

Variable L : NativeLayer.
Implicit Types (gpu : Device) (s : St L) (cdevice : nvmlDevice_t).

Lemma textProperty_ok_nonempty gpu property s v s' :
  textProperty L gpu property s = (Returned (v, None), s') -> v <> "".
Proof.
  intros H.
  destruct (textpropfunctions L !! property) as [tpf|] eqn:Hreg.
  - destruct (native_text L (tpf_f tpf) (nvmldevice gpu) (tpf_length tpf) (world s))
      as [[st buf] w'] eqn:Hrun.
    rewrite (textProperty_present L _ _ _ _ _ _ _ Hreg Hrun) in H.
    destruct (st =? NVML_SUCCESS); [|discriminate H].
    destruct (len _ >? 0) eqn:Hlen; [|discriminate H].
    injection H as <- _. intros Hv. rewrite Hv in Hlen. discriminate Hlen.
  - rewrite (textProperty_absent L _ _ _ Hreg) in H. discriminate H.
Qed.

Lemma intProperty_value_range gpu property s p err s' :
  intProperty L gpu property s = (Returned (p, err), s') -> 0 <= p < 2 ^ 32.
Proof.
  intros H. destruct (intProperty_returns L gpu property s) as (p0 & e0 & s0 & Heq & Hp).
  rewrite Heq in H. now injection H as <- _ _.
Qed.

Lemma NewDevice_run_resolved cdevice s d err s' :
  NewDevice_run L cdevice s (Some d, err) s' -> resolved d /\ nvmldevice d = cdevice.
Proof.
  intros Hrun. inversion Hrun as [| | | u s1 n s2 i s3 H1 H2 H3]; subst.
  split; [|reflexivity]. unfold resolved. simpl.
  split; [reflexivity|].
  split; [exact (textProperty_ok_nonempty _ _ _ _ _ H1)|].
  split; [exact (textProperty_ok_nonempty _ _ _ _ _ H2)|].
  exact (intProperty_value_range _ _ _ _ _ _ H3).
Qed.

Lemma NewDevice_run_accessor_calls cdevice s r s' :
  NewDevice_run L cdevice s r s' ->
  exists evs,
    calls s' = calls s ++ evs
    /\ Forall (fun ev => is_accessor_call (ev_call ev) = true) evs
    /\ (length evs <= 3)%nat.
Proof.
  intros Hrun.
  destruct (NewDevice_run_calls L _ _ _ _ Hrun) as (evs & k & Hcalls & Hk & Hmap & _).
  exists evs. split; [exact Hcalls|].
  split.
  - apply List.Forall_map with (f := ev_call) (P := fun c => is_accessor_call c = true).
    rewrite Hmap.
    destruct k as [|[|[|k]]]; simpl; repeat constructor.
    rewrite firstn_nil. constructor.
  - apply (f_equal (@length _)) in Hmap. rewrite length_map in Hmap. rewrite Hmap.
    pose proof (firstn_le_length k
                  [uuid_call L cdevice; name_call L cdevice; index_call cdevice]) as H.
    lia.
Qed.

(** X12: a [Device] that [NewDevice] returns wraps the handle it was
    built from, has a non-empty [uuid] and a non-empty [name], an [index]
    of the [C.uint] range, and an empty [pcibus]: no code path fills that
    field. *)
Theorem X12_NewDevice_fields cdevice s d err s' :
  NewDevice L cdevice s = (Returned (Some d, err), s') ->
  nvmldevice d = cdevice
  /\ uuid d <> "" /\ name d <> ""
  /\ 0 <= index d < 2 ^ 32
  /\ pcibus d = "".
Proof.
  intros H. destruct (NewDevice_runs L cdevice s) as (r & s0 & Heq & Hrun).
  rewrite Heq in H. injection H as -> ->.
  destruct (NewDevice_run_resolved _ _ _ _ _ Hrun) as ((Hp & Hu & Hn & Hi) & Hh).
  auto.
Qed.

(** The construction loop appends to the devices it was given; what it
    appends was built from an initial part of the handles, in order. *)
Lemma GetAllGPUs_range_built (cdevices : list nvmlDevice_t) : forall devices s,
  exists built s' evs,
    GetAllGPUs_range L cdevices devices s = (Returned (devices ++ built), s')
    /\ calls s' = calls s ++ evs
    /\ Forall (fun ev => is_accessor_call (ev_call ev) = true) evs
    /\ (length evs <= 3 * length cdevices)%nat
    /\ Forall resolved built
    /\ exists rest, cdevices = map nvmldevice built ++ rest.
Proof.
  induction cdevices as [|cdevice rest IH]; intros devices s.
  - exists [], s, []. simpl. rewrite !app_nil_r.
    split; [reflexivity|]. split; [reflexivity|]. split; [constructor|].
    split; [lia|]. split; [constructor|]. exists []. reflexivity.
  - destruct (NewDevice_runs L cdevice s) as ([d err] & s1 & Heq & Hrun).
    destruct (NewDevice_run_accessor_calls _ _ _ _ Hrun) as (evs1 & Hcalls1 & Hacc1 & Hlen1).
    simpl GetAllGPUs_range. rewrite (bind_returned L _ _ _ _ _ Heq).
    destruct d as [d|].
    + destruct (NewDevice_run_resolved _ _ _ _ _ Hrun) as [Hres Hh].
      assert (err = None) as -> by (inversion Hrun; reflexivity).
      destruct (IH (devices ++ [d]) s1)
        as (built & s' & evs2 & Heq2 & Hcalls2 & Hacc2 & Hlen2 & Hbuilt & tail & Htail).
      exists (d :: built), s', (evs1 ++ evs2).
      split; [rewrite Heq2, <- app_assoc; reflexivity|].
      split; [rewrite Hcalls2, Hcalls1; now rewrite <- app_assoc|].
      split; [apply Forall_app; split; assumption|].
      split; [rewrite length_app; simpl; lia|].
      split; [constructor; assumption|].
      exists tail. simpl. now rewrite Hh, Htail.
    + assert (exists e, err = Some e) as [e ->]
          by (inversion Hrun; unfold errors_New; eauto).
      exists [], s1, evs1. rewrite app_nil_r.
      split; [reflexivity|]. split; [exact Hcalls1|]. split; [exact Hacc1|].
      split; [simpl; lia|]. split; [constructor|].
      exists (cdevice :: rest). reflexivity.
Qed.

Lemma Constructs_handles s1 cdevices ds s2 :
  Constructs L s1 cdevices ds s2 -> map nvmldevice ds = cdevices /\ Forall resolved ds.
Proof.
  induction 1 as [s|s h d s1 hs ds s2 Hnew _ [IH1 IH2]].
  - split; [reflexivity | constructor].
  - destruct (NewDevice_runs L h s) as (r & s0 & Heq & Hrun).
    rewrite Heq in Hnew. injection Hnew as -> ->.
    destruct (NewDevice_run_resolved _ _ _ _ _ Hrun) as [Hres Hh].
    split; [simpl; now rewrite Hh, IH1 | constructor; assumption].
Qed.

(** X13: when [getAllDevices] succeeds and [NewDevice] succeeds on each
    of its handles in turn, [GetAllGPUs] returns exactly the devices so
    built, with a [nil] error: one device per handle, in the order of the
    handles, each wrapping its handle. *)
Theorem X13_GetAllGPUs_one_device_per_handle s0 cdevices s1 ds s2 :
  getAllDevices L s0 = (Returned (cdevices, None), s1) ->
  Constructs L s1 cdevices ds s2 ->
  GetAllGPUs L s0 = (Returned (ds, None), s2)
  /\ map nvmldevice ds = cdevices
  /\ length ds = length cdevices.
Proof.
  intros Hall Hcons.
  destruct (Constructs_handles _ _ _ _ Hcons) as [Hmap _].
  split; [|split; [exact Hmap | now rewrite <- Hmap, length_map]].
  unfold GetAllGPUs. rewrite (bind_returned L _ _ _ _ _ Hall). cbv beta iota.
  assert (Hrange : GetAllGPUs_range L cdevices [] s1 = (Returned ds, s2)).
  { pose proof (GetAllGPUs_range_constructs L _ _ _ _ Hcons [] []) as H.
    rewrite app_nil_r in H. exact H. }
  now rewrite (bind_returned L _ _ _ _ _ Hrange).
Qed.

(** [GetAllGPUs] after a successful count query. *)
Lemma GetAllGPUs_trace s st c w' :
  native_GetCount L (world s) = (st, c, w') ->
  st = NVML_SUCCESS ->
  exists devices err s' m evs1 evs2,
    GetAllGPUs L s = (Returned (devices, err), s')
    /\ calls s' = calls s ++ mkEvent CallGetCount st :: evs1 ++ evs2
    /\ (m <= Z.to_nat (C_uint c))%nat
    /\ map ev_call evs1 = lookup_calls 0 m
    /\ Forall (fun ev => is_accessor_call (ev_call ev) = true) evs2
    /\ (length evs2 <= 3 * m)%nat
    /\ Forall resolved devices
    /\ (length devices <= m)%nat
    /\ (err = None \/ err = errors_New "No devices found"
        \/ err = errors_New "nvmlDeviceGetHandleByIndex returns error")
    /\ (err = errors_New "No devices found" <-> C_uint c = 0)
    /\ (err <> None -> devices = [] /\ evs2 = []).
Proof.
  intros Hrun Hst.
  destruct (getAllDevices_trace L s st c w' Hrun Hst)
    as (cdevices & r & s1 & evs1 & m & Heq & Hcalls & Hm & Hmap & Hok & Hnone & Hfail & Hr).
  assert (Hzero : r = errors_New "No devices found" <-> C_uint c = 0).
  { split; [intros H; now destruct (Hnone H)|].
    intros Hc. rewrite Hc in Hm. simpl in Hm.
    destruct Hr as [Hr|[Hr|Hr]]; [|exact Hr|].
    - destruct (Hok Hr) as (_ & _ & Hpos). lia.
    - destruct (Hfail Hr) as (Hlen & _). lia. }
  unfold GetAllGPUs. rewrite (bind_returned L _ _ _ _ _ Heq). cbv beta iota.
  destruct r as [e|].
  - exists [], (Some e), s1, m, evs1, [].
    split; [reflexivity|]. split; [now rewrite app_nil_r|].
    split; [exact Hm|]. split; [exact Hmap|]. split; [constructor|].
    split; [simpl; lia|]. split; [constructor|]. split; [simpl; lia|].
    split; [exact Hr|]. split; [exact Hzero|]. auto.
  - destruct (Hok eq_refl) as (Hmc & Hlen & Hpos).
    destruct (GetAllGPUs_range_built cdevices [] s1)
      as (built & s2 & evs2 & Heq2 & Hcalls2 & Hacc & Hlen2 & Hbuilt & rest & Hrest).
    simpl in Heq2. rewrite (bind_returned L _ _ _ _ _ Heq2).
    exists built, None, s2, m, evs1, evs2.
    split; [reflexivity|].
    split; [rewrite Hcalls2, Hcalls, <- app_assoc; reflexivity|].
    split; [exact Hm|]. split; [exact Hmap|]. split; [exact Hacc|].
    split; [lia|]. split; [exact Hbuilt|].
    split.
    { apply (f_equal (@length _)) in Hrest.
      rewrite length_app, length_map in Hrest. lia. }
    split; [exact Hr|]. split; [exact Hzero|].
    intros H. now contradiction H.
Qed.

(** X14: every device [GetAllGPUs] returns is fully populated (non-empty
    [uuid] and [name], [index] of the [C.uint] range, empty [pcibus]);
    there are never more devices than the native count; and an error
    never comes with devices. *)
Theorem X14_GetAllGPUs_devices_are_populated s devices err s' :
  GetAllGPUs L s = (Returned (devices, err), s') ->
  Forall resolved devices
  /\ Z.of_nat (length devices) <= C_uint (snd (fst (native_GetCount L (world s))))
  /\ (err <> None -> devices = []).
Proof.
  intros H.
  destruct (native_GetCount L (world s)) as [[st c] w'] eqn:Hrun. simpl.
  destruct (GetAllGPUs_run L _ _ _ _ Hrun) as [[_ Hfatal] | [Hst _]].
  { rewrite Hfatal in H. discriminate H. }
  destruct (GetAllGPUs_trace s st c w' Hrun Hst)
    as (ds & e & s0 & m & evs1 & evs2 & Heq & _ & Hm & _ & _ & _ & Hres & Hlen & _ & _ & He).
  rewrite Heq in H. injection H as -> -> ->.
  pose proof (C_uint_range c) as Hc.
  split; [exact Hres|]. split; [lia|].
  intros Hne. now destruct (He Hne).
Qed.

(** X15: when [GetAllGPUs] returns, its error is [nil], "No devices found"
    or "nvmlDeviceGetHandleByIndex returns error"; an error of
    [NewDevice] never reaches the caller.  The error is "No devices found"
    exactly when the native count is 0. *)
Theorem X15_GetAllGPUs_errors_are_closed s devices err s' :
  GetAllGPUs L s = (Returned (devices, err), s') ->
  (err = None \/ err = errors_New "No devices found"
   \/ err = errors_New "nvmlDeviceGetHandleByIndex returns error")
  /\ (err = errors_New "No devices found"
      <-> C_uint (snd (fst (native_GetCount L (world s)))) = 0).
Proof.
  intros H.
  destruct (native_GetCount L (world s)) as [[st c] w'] eqn:Hrun. simpl.
  destruct (GetAllGPUs_run L _ _ _ _ Hrun) as [[_ Hfatal] | [Hst _]].
  { rewrite Hfatal in H. discriminate H. }
  destruct (GetAllGPUs_trace s st c w' Hrun Hst)
    as (ds & e & s0 & m & evs1 & evs2 & Heq & _ & _ & _ & _ & _ & _ & _ & He & Hz & _).
  rewrite Heq in H. injection H as -> -> ->.
  split; assumption.
Qed.

(** X16: [GetAllGPUs] works in two phases.  Its native calls are the count
    query, then the handle lookups for the indices 0, 1, ... in order,
    then accessor calls only: every handle is obtained before the first
    device is built.  It makes at most three accessor calls per handle
    looked up, so at most 1 + 4 * count native calls in all. *)
Theorem X16_GetAllGPUs_lookups_then_accessors s :
  exists st m evs1 evs2,
    new_calls (GetAllGPUs L) s = mkEvent CallGetCount st :: evs1 ++ evs2
    /\ map ev_call evs1 = lookup_calls 0 m
    /\ Forall (fun ev => is_accessor_call (ev_call ev) = true) evs2
    /\ (length evs2 <= 3 * m)%nat
    /\ Z.of_nat m <= C_uint (snd (fst (native_GetCount L (world s))))
    /\ Z.of_nat (length (new_calls (GetAllGPUs L) s))
       <= 1 + 4 * C_uint (snd (fst (native_GetCount L (world s)))).
Proof.
  destruct (native_GetCount L (world s)) as [[st c] w'] eqn:Hrun. simpl.
  pose proof (C_uint_range c) as Hc.
  destruct (GetAllGPUs_run L _ _ _ _ Hrun) as [[_ Hfatal] | [Hst _]].
  - exists st, O, [], [].
    assert (Hnew : new_calls (GetAllGPUs L) s = [mkEvent CallGetCount st])
      by (apply new_calls_app; now rewrite Hfatal).
    rewrite Hnew. simpl.
    split; [reflexivity|]. split; [reflexivity|]. split; [constructor|].
    split; [lia|]. split; lia.
  - destruct (GetAllGPUs_trace s st c w' Hrun Hst)
      as (ds & e & s0 & m & evs1 & evs2 & Heq & Hcalls & Hm & Hmap & Hacc & Hlen & _).
    exists st, m, evs1, evs2.
    assert (Hnew : new_calls (GetAllGPUs L) s = mkEvent CallGetCount st :: evs1 ++ evs2)
      by (apply new_calls_app; now rewrite Heq).
    rewrite Hnew.
    split; [reflexivity|]. split; [exact Hmap|]. split; [exact Hacc|].
    split; [exact Hlen|]. split; [lia|].
    apply (f_equal (@length _)) in Hmap.
    rewrite length_map in Hmap. unfold lookup_calls in Hmap.
    rewrite length_map, length_seq in Hmap.
    simpl. rewrite length_app. lia.
Qed.

Lemma textProperty_same_answer gpu gpu' property s t :
  nvmldevice gpu' = nvmldevice gpu ->
  (forall f dev len w1 w2,
      fst (native_text L f dev len w1) = fst (native_text L f dev len w2)) ->
  fst (textProperty L gpu' property t) = fst (textProperty L gpu property s).
Proof.
  intros Hh Hstable.
  destruct (textpropfunctions L !! property) as [tpf|] eqn:Hreg.
  - pose proof (Hstable (tpf_f tpf) (nvmldevice gpu) (tpf_length tpf) (world s) (world t))
      as Hsame.
    destruct (native_text L (tpf_f tpf) (nvmldevice gpu) (tpf_length tpf) (world s))
      as [[st buf] w1] eqn:Hs.
    destruct (native_text L (tpf_f tpf) (nvmldevice gpu) (tpf_length tpf) (world t))
      as [[st' buf'] w2] eqn:Ht.
    simpl in Hsame. injection Hsame as <- <-.
    rewrite <- Hh in Ht.
    rewrite (textProperty_present L _ _ _ _ _ _ _ Hreg Hs).
    rewrite (textProperty_present L _ _ _ _ _ _ _ Hreg Ht).
    reflexivity.
  - now rewrite !(textProperty_absent L _ _ _ Hreg).
Qed.

Lemma intProperty_same_answer gpu gpu' property s t :
  nvmldevice gpu' = nvmldevice gpu ->
  (forall f dev w1 w2, fst (native_int L f dev w1) = fst (native_int L f dev w2)) ->
  fst (intProperty L gpu' property t) = fst (intProperty L gpu property s).
Proof.
  intros Hh Hstable.
  destruct (intpropfunctions !! property) as [ipf|] eqn:Hreg.
  - pose proof (Hstable (ipf_f ipf) (nvmldevice gpu) (world s) (world t)) as Hsame.
    destruct (native_int L (ipf_f ipf) (nvmldevice gpu) (world s)) as [[st v] w1] eqn:Hs.
    destruct (native_int L (ipf_f ipf) (nvmldevice gpu) (world t)) as [[st' v'] w2] eqn:Ht.
    simpl in Hsame. injection Hsame as <- <-.
    rewrite <- Hh in Ht.
    rewrite (intProperty_present L _ _ _ _ _ _ _ Hreg Hs).
    rewrite (intProperty_present L _ _ _ _ _ _ _ Hreg Ht).
    reflexivity.
  - now rewrite !(intProperty_absent L _ _ _ Hreg).
Qed.

(** X17: round trip through a library with stable answers.  When the
    native accessors answer the same question the same way at any time,
    the accessors [UUID()], [Name()] and [Index()] of a device built by
    [NewDevice] return, whenever they are called, exactly the values held
    in its [uuid], [name] and [index] fields, with a [nil] error. *)
Theorem X17_accessors_agree_with_cache_when_stable cdevice s d s' t :
  stable_accessors L ->
  NewDevice L cdevice s = (Returned (Some d, None), s') ->
  fst (UUID L d t) = Returned (uuid d, None)
  /\ fst (Name L d t) = Returned (name d, None)
  /\ fst (Index L d t) = Returned (index d, None).
Proof.
  intros [Htext Hint] Hnew.
  destruct (NewDevice_returned_device L _ _ _ _ _ Hnew)
    as (_ & Hh & _ & s1 & s2 & H1 & H2 & H3).
  unfold UUID, Name, Index in *.
  split; [|split].
  - rewrite (textProperty_same_answer (mkDevice cdevice 0 "" "" "") d "UUID" s t Hh Htext).
    now rewrite H1.
  - rewrite (textProperty_same_answer (mkDevice cdevice 0 "" "" (uuid d)) d "Name" s1 t
               Hh Htext).
    now rewrite H2.
  - rewrite (intProperty_same_answer (mkDevice cdevice 0 "" (name d) (uuid d)) d "Index"
               s2 t Hh Hint).
    now rewrite H3.
Qed.

(** X18: the Go wrapper [nvmlDeviceGetCount] makes one native call and
    returns -1 exactly when it returns an error, which is exactly when the
    call did not succeed; a count returned without an error is the native
    one and is never negative. *)
Theorem X18_nvmlDeviceGetCount_minus_one_iff_error s :
  exists count err s' st,
    nvmlDeviceGetCount L s = (Returned (count, err), s')
    /\ new_calls (nvmlDeviceGetCount L) s = [mkEvent CallGetCount st]
    /\ (err = None <-> st = NVML_SUCCESS)
    /\ (err <> None <-> count = -1)
    /\ (err = None ->
        count = C_uint (snd (fst (native_GetCount L (world s))))
        /\ 0 <= count < 2 ^ 32).
Proof.
  destruct (native_GetCount L (world s)) as [[st c] w'] eqn:Hrun.
  pose proof (nvmlDeviceGetCount_run L s st c w' Hrun) as Heq.
  pose proof (C_uint_range c) as Hc.
  destruct (st =? NVML_SUCCESS) eqn:Hst.
  - apply Z.eqb_eq in Hst.
    eexists (C_uint c), None, _, st.
    split; [exact Heq|].
    split; [apply new_calls_app; now rewrite Heq|].
    split; [tauto|].
    split; [split; [congruence | lia]|].
    intros _. simpl. split; [reflexivity | exact Hc].
  - apply Z.eqb_neq in Hst.
    eexists (-1), _, _, st.
    split; [exact Heq|].
    split; [apply new_calls_app; now rewrite Heq|].
    unfold errors_New.
    split; [split; [discriminate | contradiction]|].
    split; [split; [reflexivity | discriminate]|].
    discriminate.
Qed.

End Devices.

(** ** Cached identity and the accessors *)

Section Identity.

Variable L : NativeLayer.
Implicit Types (gpu : Device) (s : St L) (cdevice : nvmlDevice_t).

(** A text property that resolved is the decoding of the buffer a
    successful native call left, and an integer one the value it wrote. *)
Lemma textProperty_resolved gpu property tpf s v s' :
  textpropfunctions L !! property = Some tpf ->
  textProperty L gpu property s = (Returned (v, None), s') ->
  exists buf,
    native_text L (tpf_f tpf) (nvmldevice gpu) (tpf_length tpf) (world s)
    = (NVML_SUCCESS, buf, world s')
    /\ v = strndup buf (tpf_length tpf).
Proof.
  intros Hreg H.
  pose proof (textpropfunctions_length L _ _ Hreg) as Hlen.
  destruct (native_text L (tpf_f tpf) (nvmldevice gpu) (tpf_length tpf) (world s))
    as [[st buf] w'] eqn:Hrun.
  rewrite (textProperty_present L _ _ _ _ _ _ _ Hreg Hrun) in H.
  rewrite (go_uint_small _ Hlen) in H.
  destruct (st =? NVML_SUCCESS) eqn:Hst; [|discriminate H].
  apply Z.eqb_eq in Hst. subst st.
  destruct (len _ >? 0); [|discriminate H].
  injection H as <- <-. exists buf. split; reflexivity.
Qed.

Lemma intProperty_resolved gpu property ipf s p s' :
  intpropfunctions !! property = Some ipf ->
  intProperty L gpu property s = (Returned (p, None), s') ->
  exists v,
    native_int L (ipf_f ipf) (nvmldevice gpu) (world s) = (NVML_SUCCESS, v, world s')
    /\ p = C_uint v.
Proof.
  intros Hreg H.
  destruct (native_int L (ipf_f ipf) (nvmldevice gpu) (world s)) as [[st v] w'] eqn:Hrun.
  rewrite (intProperty_present L _ _ _ _ _ _ _ Hreg Hrun) in H.
  destruct (st =? NVML_SUCCESS) eqn:Hst; [|discriminate H].
  apply Z.eqb_eq in Hst. subst st.
  injection H as <- <-. exists v. split; reflexivity.
Qed.

(** C1 (amended): for a [Device] that [NewDevice] built from a handle
    whose UUID, Name and Index accessors all succeeded, the cached fields
    hold exactly what the native layer supplied at construction: [uuid]
    and [name] are the decodings of the buffers the UUID and Name calls
    filled, [index] is the value the Index call wrote.  The public
    accessors [UUID()], [Name()] and [Index()] do not read these fields:
    each makes one native call on the handle whenever it is called and
    returns what the native layer supplies in that call.  So they return
    the cached values when the answers of the library are stable, and not
    in general. *)
Theorem C1_identity_cached_accessors_requery cdevice s d s' :
  NewDevice L cdevice s = (Returned (Some d, None), s') ->
  (exists bufU w1 bufN w2 v,
      native_text L nvmlDeviceGetUUID cdevice (C_uint (NVML_DEVICE_UUID_BUFFER_SIZE L))
                  (world s)
      = (NVML_SUCCESS, bufU, w1)
      /\ native_text L nvmlDeviceGetName cdevice (C_uint (NVML_DEVICE_NAME_BUFFER_SIZE L)) w1
         = (NVML_SUCCESS, bufN, w2)
      /\ native_int L nvmlDeviceGetIndex cdevice w2 = (NVML_SUCCESS, v, world s')
      /\ uuid d = strndup bufU (C_uint (NVML_DEVICE_UUID_BUFFER_SIZE L))
      /\ name d = strndup bufN (C_uint (NVML_DEVICE_NAME_BUFFER_SIZE L))
      /\ index d = C_uint v)
  /\
  (forall t st buf w',
      native_text L nvmlDeviceGetUUID cdevice (C_uint (NVML_DEVICE_UUID_BUFFER_SIZE L))
                  (world t)
      = (st, buf, w') ->
      UUID L d t
      = (Returned
           (if st =? NVML_SUCCESS
            then
              if len (strndup buf (C_uint (NVML_DEVICE_UUID_BUFFER_SIZE L))) >? 0
              then (strndup buf (C_uint (NVML_DEVICE_UUID_BUFFER_SIZE L)), None)
              else ("", errors_New "textProperty returned empty string")
            else ("", errors_New "gettextProperty bridge returned error")),
         mkSt w' (calls t ++ [mkEvent (uuid_call L cdevice) st])))
  /\
  (forall t st buf w',
      native_text L nvmlDeviceGetName cdevice (C_uint (NVML_DEVICE_NAME_BUFFER_SIZE L))
                  (world t)
      = (st, buf, w') ->
      Name L d t
      = (Returned
           (if st =? NVML_SUCCESS
            then
              if len (strndup buf (C_uint (NVML_DEVICE_NAME_BUFFER_SIZE L))) >? 0
              then (strndup buf (C_uint (NVML_DEVICE_NAME_BUFFER_SIZE L)), None)
              else ("", errors_New "textProperty returned empty string")
            else ("", errors_New "gettextProperty bridge returned error")),
         mkSt w' (calls t ++ [mkEvent (name_call L cdevice) st])))
  /\
  (forall t st v w',
      native_int L nvmlDeviceGetIndex cdevice (world t) = (st, v, w') ->
      Index L d t
      = (Returned
           (if st =? NVML_SUCCESS
            then (C_uint v, None)
            else (0, errors_New "getintProperty bridge returned error")),
         mkSt w' (calls t ++ [mkEvent (index_call cdevice) st])))
  /\
  (stable_accessors L ->
   forall t,
     fst (UUID L d t) = Returned (uuid d, None)
     /\ fst (Name L d t) = Returned (name d, None)
     /\ fst (Index L d t) = Returned (index d, None)).
Proof.
  intros Hnew.
  destruct (NewDevice_returned_device L _ _ _ _ _ Hnew)
    as (_ & Hh & _ & s1 & s2 & H1 & H2 & H3).
  split; [|split; [|split; [|split]]].
  - unfold UUID in H1. unfold Name in H2. unfold Index in H3.
    destruct (textProperty_resolved _ _ _ _ _ _ (textpropfunctions_UUID L) H1)
      as (bufU & HU & EU).
    destruct (textProperty_resolved _ _ _ _ _ _ (textpropfunctions_Name L) H2)
      as (bufN & HN & EN).
    destruct (intProperty_resolved _ _ _ _ _ _ intpropfunctions_Index H3)
      as (v & HI & EI).
    simpl in HU, HN, HI, EU, EN.
    exists bufU, (world s1), bufN, (world s2), v.
    repeat split; assumption.
  - intros t st buf w' Hrun. rewrite <- Hh in Hrun |- *. unfold UUID.
    rewrite (textProperty_present L d "UUID" _ t st buf w' (textpropfunctions_UUID L) Hrun).
    simpl tpf_length. now rewrite go_uint_C_uint.
  - intros t st buf w' Hrun. rewrite <- Hh in Hrun |- *. unfold Name.
    rewrite (textProperty_present L d "Name" _ t st buf w' (textpropfunctions_Name L) Hrun).
    simpl tpf_length. now rewrite go_uint_C_uint.
  - intros t st v w' Hrun. rewrite <- Hh in Hrun |- *. unfold Index.
    now rewrite (intProperty_present L d "Index" _ t st v w' intpropfunctions_Index Hrun).
  - intros [Htext Hint] t. unfold UUID, Name, Index in *.
    split; [|split].
    + rewrite (textProperty_same_answer L (mkDevice cdevice 0 "" "" "") d "UUID" s t
                 Hh Htext).
      now rewrite H1.
    + rewrite (textProperty_same_answer L (mkDevice cdevice 0 "" "" (uuid d)) d "Name" s1 t
                 Hh Htext).
      now rewrite H2.
    + rewrite (intProperty_same_answer L (mkDevice cdevice 0 "" (name d) (uuid d)) d "Index"
                 s2 t Hh Hint).
      now rewrite H3.
Qed.

End Identity.

(** ** Runs on the stub libraries *)

Import Stub.

(** C1, as stated, fails.  With the [renamed] library [NewDevice] builds a
    device whose cached name is "Tesla K40m"; the following call of its
    [Name()] accessor makes a native call and returns "Tesla K80". *)
Lemma C1_accessors_are_not_served_from_cache :
  let d := mkDevice 100 0 "" "Tesla K40m" "GPU-0" in
  let s' := snd (NewDevice (layer renamed) 100 (start renamed)) in
  NewDevice (layer renamed) 100 (start renamed) = (Returned (Some d, None), s')
  /\ fst (Name (layer renamed) d s') = Returned ("Tesla K80", None)
  /\ fst (Name (layer renamed) d s') <> Returned (name d, None)
  /\ new_calls (Name (layer renamed) d) s'
     = [mkEvent (CallText nvmlDeviceGetName 100 64) NVML_SUCCESS].
Proof.
  cbv zeta.
  split; [vm_compute; reflexivity|].
  split; [vm_compute; reflexivity|].
  split; [vm_compute; discriminate|].
  vm_compute; reflexivity.
Qed.

(** C1 (amended) on the [healthy] library, for the board with handle 100:
    the cached index is the value the library wrote, and since its answers
    are stable the accessors agree with the cache in a later state. *)
Lemma C1_witness :
  let d := mkDevice 100 0 "" "Tesla K40m" "GPU-0" in
  let t := mkSt (40%nat : World (layer healthy)) [] in
  NewDevice (layer healthy) 100 (start healthy)
  = (Returned (Some d, None), snd (NewDevice (layer healthy) 100 (start healthy)))
  /\ stable_accessors (layer healthy)
  /\ fst (UUID (layer healthy) d t) = Returned (uuid d, None)
  /\ fst (Name (layer healthy) d t) = Returned (name d, None)
  /\ fst (Index (layer healthy) d t) = Returned (index d, None).
Proof.
  cbv zeta.
  assert (H : NewDevice (layer healthy) 100 (start healthy)
              = (Returned (Some (mkDevice 100 0 "" "Tesla K40m" "GPU-0"), None),
                 snd (NewDevice (layer healthy) 100 (start healthy))))
    by (vm_compute; reflexivity).
  assert (Hstable : stable_accessors (layer healthy))
    by (split; intros; reflexivity).
  split; [exact H|]. split; [exact Hstable|].
  exact (proj2 (proj2 (proj2 (proj2
           (C1_identity_cached_accessors_requery (layer healthy) 100 _ _ _ H))))
           Hstable (mkSt (40%nat : World (layer healthy)) [])).
Defined.

(** C2 on the [broken] library: the accessor fails and the answer is [true]. *)
Lemma C2_witness :
  MultiGpuBoard (layer broken) (board 100) (start broken)
  = (Returned (true, errors_New "getintProperty bridge returned error"),
     mkSt (1%nat : World (layer broken)) [mkEvent (CallInt nvmlDeviceGetMultiGpuBoard 100) 999]).
Proof.
  exact (proj2 (C2_MultiGpuBoard_zero_is_true (layer broken) (board 100) (start broken))
               999 5 1%nat eq_refl).
Defined.

(** C3, as stated, fails.  With the [broken] library the fan-speed accessor
    returns status 999, for which the library's message is "Unknown
    Error"; the error of [intProperty] is "getintProperty bridge returned
    error" instead, and likewise for [textProperty]. *)
Lemma C3_native_message_is_not_carried :
  fst (native_int (layer broken) nvmlDeviceGetFanSpeed 100 0%nat) = (999, 5)
  /\ Error (layer broken) (board 100) 999 = errors_New "Unknown Error"
  /\ fst (intProperty (layer broken) (board 100) "FanSpeed" (start broken))
     = Returned (0, errors_New "getintProperty bridge returned error")
  /\ fst (intProperty (layer broken) (board 100) "FanSpeed" (start broken))
     <> Returned (0, Error (layer broken) (board 100) 999)
  /\ fst (native_text (layer broken) nvmlDeviceGetSerial 100 30 0%nat) = (999, bytes "junk")
  /\ fst (textProperty (layer broken) (board 100) "Serial" (start broken))
     = Returned ("", errors_New "gettextProperty bridge returned error")
  /\ fst (textProperty (layer broken) (board 100) "Serial" (start broken))
     <> Returned ("", Error (layer broken) (board 100) 999).
Proof.
  repeat split; vm_compute; (reflexivity || discriminate).
Qed.

(** C3 (amended) on the [broken] library. *)
Lemma C3_witness :
  fst (intProperty (layer broken) (board 100) "FanSpeed" (start broken))
  = Returned (0, errors_New "getintProperty bridge returned error")
  /\ fst (textProperty (layer broken) (board 100) "Serial" (start broken))
     = Returned ("", errors_New "gettextProperty bridge returned error").
Proof.
  split.
  - apply (proj1 (C3_accessor_failure_has_fixed_message (layer broken) (board 100) "FanSpeed"
                    (start broken))
                 (mkIntPropFunc nvmlDeviceGetFanSpeed) 999 5 1%nat);
      [reflexivity | reflexivity | discriminate].
  - apply (proj2 (C3_accessor_failure_has_fixed_message (layer broken) (board 100) "Serial"
                    (start broken))
                 (mkTextPropFunc nvmlDeviceGetSerial 30) 999 (bytes "junk") 1%nat);
      [reflexivity | reflexivity | discriminate].
Defined.

(** C4 on the [nameless101] library: the second of three boards fails to
    construct, and the first one alone is returned, without an error. *)
Lemma C4_witness :
  fst (GetAllGPUs (layer nameless101) (start nameless101))
  = Returned ([mkDevice 100 0 "" "Tesla K40m" "GPU-0"], None).
Proof.
  pose (s1 := snd (getAllDevices (layer nameless101) (start nameless101))).
  pose (s2 := snd (NewDevice (layer nameless101) 100 s1)).
  pose (s3 := snd (NewDevice (layer nameless101) 101 s2)).
  rewrite (C4_construction_failure_is_masked (layer nameless101) (start nameless101)
             [100] 101 [102] s1 [mkDevice 100 0 "" "Tesla K40m" "GPU-0"] s2
             None "Cannot retrieve Name property" s3).
  - reflexivity.
  - vm_compute; reflexivity.
  - apply (Constructs_cons (layer nameless101) s1 100 _ s2 [] [] s2).
    + vm_compute; reflexivity.
    + apply Constructs_nil.
  - vm_compute; reflexivity.
Defined.

(** C5 on the [lookup1_fails] library: a count of 3, the lookup of index 1
    fails. *)
Lemma C5_witness :
  fst (GetAllGPUs (layer lookup1_fails) (start lookup1_fails))
  = Returned ([], errors_New "nvmlDeviceGetHandleByIndex returns error").
Proof.
  apply (C5_failed_handle_lookup_returns_no_device (layer lookup1_fails)
           (start lookup1_fails) 1 999).
  - vm_compute. right. right. left. reflexivity.
  - discriminate.
Defined.

(** C6 on the [unterminated] library: 100 bytes without a NUL decode to the
    64 bytes the name buffer is declared with. *)
Lemma C6_witness :
  let v := string_of_list_byte (repeat x41 64) in
  textProperty (layer unterminated) (board 100) "Name" (start unterminated)
  = (Returned (v, None),
     snd (textProperty (layer unterminated) (board 100) "Name" (start unterminated)))
  /\ len v <= 64.
Proof.
  cbv zeta.
  assert (H : textProperty (layer unterminated) (board 100) "Name" (start unterminated)
              = (Returned (string_of_list_byte (repeat x41 64), None),
                 snd (textProperty (layer unterminated) (board 100) "Name"
                        (start unterminated))))
    by (vm_compute; reflexivity).
  split; [exact H|].
  exact (proj1 (C6_text_within_declared_length (layer unterminated) (board 100) "Name"
                  (mkTextPropFunc nvmlDeviceGetName 64) _ _ _ _ eq_refl H)).
Defined.

(** C7 on the [nameless101] library: the UUID of board 101 resolves, its
    name does not, and the index is not asked for. *)
Lemma C7_witness :
  let s1 := snd (UUID (layer nameless101) (board 101) (start nameless101)) in
  let s2 := snd (Name (layer nameless101) (mkDevice 101 0 "" "" "GPU-0") s1) in
  NewDevice (layer nameless101) 101 (start nameless101)
  = (Returned (None, errors_New "Cannot retrieve Name property"), s2).
Proof.
  cbv zeta.
  apply (proj1 (proj2 (C7_NewDevice_in_order_fail_fast (layer nameless101) 101 (start nameless101)))
               "GPU-0" (snd (UUID (layer nameless101) (board 101) (start nameless101)))
               "" "gettextProperty bridge returned error").
  - vm_compute; reflexivity.
  - vm_compute; reflexivity.
Defined.

(** C8 on the [healthy] library, for a name in neither registry. *)
Lemma C8_witness :
  intpropfunctions !! "Bogus" = None
  /\ textpropfunctions (layer healthy) !! "Bogus" = None
  /\ intProperty (layer healthy) (board 100) "Bogus" (start healthy)
     = (Returned (0, errors_New "property not found"), start healthy)
  /\ textProperty (layer healthy) (board 100) "Bogus" (start healthy)
     = (Returned ("", errors_New "property not found"), start healthy).
Proof.
  split; [reflexivity|]. split; [reflexivity|].
  split.
  - exact (proj1 (proj1 (C8_property_not_found (layer healthy) (board 100) "Bogus" (start healthy))
                        eq_refl)).
  - exact (proj1 (proj2 (C8_property_not_found (layer healthy) (board 100) "Bogus" (start healthy))
                        eq_refl)).
Defined.

(** C9 on the [blank] library: success, and a buffer that starts with NUL. *)
Lemma C9_witness :
  fst (textProperty (layer blank) (board 100) "Name" (start blank))
  = Returned ("", errors_New "textProperty returned empty string").
Proof.
  apply (proj1 (C9_empty_text_is_an_error (layer blank) (board 100) "Name" (start blank))
               (mkTextPropFunc nvmlDeviceGetName 64) NVML_SUCCESS
               (x00 :: bytes "stale") 1%nat);
    reflexivity.
Defined.

(** C10 on the [countless] and [empty_host] libraries. *)
Lemma C10_witness :
  GetAllGPUs (layer countless) (start countless)
  = (Fatal "nvmlDeviceGetCount failed",
     mkSt (1%nat : World (layer countless)) [mkEvent CallGetCount 999])
  /\ GetAllGPUs (layer empty_host) (start empty_host)
     = (Returned ([], errors_New "No devices found"),
        mkSt (1%nat : World (layer empty_host)) [mkEvent CallGetCount NVML_SUCCESS]).
Proof.
  split.
  - apply (proj1 (C10_count_failure_is_the_only_fatal_path (layer countless)
                    (start countless)) 999 0 1%nat);
      [reflexivity | discriminate].
  - apply (proj1 (proj2 (proj2 (C10_count_failure_is_the_only_fatal_path
                                  (layer empty_host) (start empty_host))))
                 NVML_SUCCESS 0 1%nat);
      reflexivity.
Defined.

(** ** Further runs on the stub libraries *)

(** X1 on the [healthy] library: the fan speed it reports is 7. *)
Lemma X1_witness :
  fst (intProperty (layer healthy) (board 100) "FanSpeed" (start healthy))
  = Returned (7, None).
Proof.
  apply (X1_intProperty_returns_native_value (layer healthy) (board 100) "FanSpeed"
           (mkIntPropFunc nvmlDeviceGetFanSpeed) (start healthy) NVML_SUCCESS 7 1%nat);
    [reflexivity | reflexivity | reflexivity | lia].
Defined.

(** X3 on the [healthy] library. *)
Lemma X3_witness :
  (exists st, new_calls (intProperty (layer healthy) (board 100) "BoardId") (start healthy)
              = [mkEvent (CallInt nvmlDeviceGetBoardId 100) st])
  /\
  (exists st, new_calls (textProperty (layer healthy) (board 100) "Serial") (start healthy)
              = [mkEvent (CallText nvmlDeviceGetSerial 100 30) st]).
Proof.
  split.
  - exact (proj1 (X3_one_native_call_per_dispatch (layer healthy) (board 100) "BoardId"
                    (start healthy))
                 (mkIntPropFunc nvmlDeviceGetBoardId) eq_refl).
  - exact (proj2 (X3_one_native_call_per_dispatch (layer healthy) (board 100) "Serial"
                    (start healthy))
                 (mkTextPropFunc nvmlDeviceGetSerial 30) eq_refl).
Defined.

(** X7 on the [busy] library: free 100, total 150, used 50. *)
Lemma X7_witness :
  fst (MemoryInfo busy (board 100) (mkSt (0%nat : World busy) []))
  = Returned (mkNVMLMemory 100 150 50, None).
Proof.
  apply (proj1 (X7_MemoryInfo_passes_the_record_on busy (board 100)
                  (mkSt (0%nat : World busy) []) NVML_SUCCESS 100 150 50 1%nat
                  eq_refl ltac:(lia) ltac:(lia) ltac:(lia))).
  reflexivity.
Defined.

(** X8 on the [busy] library: the decoder reports 35 percent over 167000
    microseconds. *)
Lemma X8_witness :
  fst (GetDecoderUtilization busy (board 100) (mkSt (0%nat : World busy) []))
  = Returned (35, 167000, None).
Proof.
  rewrite (proj1 (X8_utilization_pairs_keep_their_order busy (board 100)
                    (mkSt (0%nat : World busy) []) 35 167000 ltac:(lia) ltac:(lia))
                 NVML_SUCCESS 1%nat eq_refl).
  reflexivity.
Defined.

(** X9 on the [broken] library, whose message for status 999 is "Unknown
    Error". *)
Lemma X9_witness :
  Error (layer broken) (board 100) 999 = Some "Unknown Error".
Proof.
  apply (proj2 (X9_Error_nil_iff_success (layer broken) (board 100) 999)).
  discriminate.
Defined.

(** X10 on the [healthy] library: a count of 3, and the handles 100, 101,
    102 for the indices 0, 1, 2. *)
Lemma X10_witness :
  LooksUp (layer healthy) 1%nat 0 [100; 101; 102] 4%nat
  /\ getAllDevices (layer healthy) (start healthy)
     = (Returned ([100; 101; 102], None),
        mkSt (4%nat : World (layer healthy))
             (succeeded [CallGetCount; CallGetHandleByIndex 0;
                         CallGetHandleByIndex 1; CallGetHandleByIndex 2])).
Proof.
  assert (H : LooksUp (layer healthy) 1%nat 0 [100; 101; 102] 4%nat).
  { apply (LooksUp_cons (layer healthy) 1%nat 0 100 2%nat); [reflexivity|].
    apply (LooksUp_cons (layer healthy) 2%nat 1 101 3%nat); [reflexivity|].
    apply (LooksUp_cons (layer healthy) 3%nat 2 102 4%nat); [reflexivity|].
    apply LooksUp_nil. }
  split; [exact H|].
  exact (proj2 (X10_getAllDevices_looks_up_indices_in_order (layer healthy)
                  (start healthy) NVML_SUCCESS 3 1%nat eq_refl eq_refl)
               [100; 101; 102] 4%nat H eq_refl ltac:(discriminate)).
Defined.

(** X11 on the [lookup1_fails] library: the lookup of index 1 fails, and
    the handle of index 0 comes back with the error. *)
Lemma X11_witness :
  LooksUp (layer lookup1_fails) 1%nat 0 [100] 2%nat
  /\ native_GetHandleByIndex (layer lookup1_fails) 1 2%nat = (999, 0, 3%nat)
  /\ getAllDevices (layer lookup1_fails) (start lookup1_fails)
     = (Returned ([100], errors_New "nvmlDeviceGetHandleByIndex returns error"),
        mkSt (3%nat : World (layer lookup1_fails))
             [ mkEvent CallGetCount NVML_SUCCESS;
               mkEvent (CallGetHandleByIndex 0) NVML_SUCCESS;
               mkEvent (CallGetHandleByIndex 1) 999 ]).
Proof.
  assert (H : LooksUp (layer lookup1_fails) 1%nat 0 [100] 2%nat).
  { apply (LooksUp_cons (layer lookup1_fails) 1%nat 0 100 2%nat); [reflexivity|].
    apply LooksUp_nil. }
  split; [exact H|]. split; [reflexivity|].
  exact (proj1 (X11_getAllDevices_returns_partial_handles (layer lookup1_fails)
                  (start lookup1_fails) NVML_SUCCESS 3 1%nat eq_refl eq_refl)
               [100] 2%nat 999 0 3%nat H ltac:(vm_compute; reflexivity) eq_refl
               ltac:(discriminate)).
Defined.

(** X12 on the [healthy] library, for the board with handle 102. *)
Lemma X12_witness :
  let d := mkDevice 102 2 "" "Tesla K40m" "GPU-0" in
  NewDevice (layer healthy) 102 (start healthy)
  = (Returned (Some d, None), snd (NewDevice (layer healthy) 102 (start healthy)))
  /\ nvmldevice d = 102 /\ uuid d <> "" /\ name d <> "" /\ 0 <= index d < 2 ^ 32
  /\ pcibus d = "".
Proof.
  cbv zeta.
  assert (H : NewDevice (layer healthy) 102 (start healthy)
              = (Returned (Some (mkDevice 102 2 "" "Tesla K40m" "GPU-0"), None),
                 snd (NewDevice (layer healthy) 102 (start healthy))))
    by (vm_compute; reflexivity).
  split; [exact H|].
  exact (X12_NewDevice_fields (layer healthy) 102 (start healthy) _ _ _ H).
Defined.

(** X13 on the [healthy] library: three handles, three devices. *)
Lemma X13_witness :
  let ds := [ mkDevice 100 0 "" "Tesla K40m" "GPU-0";
              mkDevice 101 1 "" "Tesla K40m" "GPU-0";
              mkDevice 102 2 "" "Tesla K40m" "GPU-0" ] in
  fst (GetAllGPUs (layer healthy) (start healthy)) = Returned (ds, None)
  /\ map nvmldevice ds = [100; 101; 102].
Proof.
  cbv zeta.
  pose (s1 := snd (getAllDevices (layer healthy) (start healthy))).
  pose (s2 := snd (NewDevice (layer healthy) 100 s1)).
  pose (s3 := snd (NewDevice (layer healthy) 101 s2)).
  pose (s4 := snd (NewDevice (layer healthy) 102 s3)).
  assert (H : Constructs (layer healthy) s1 [100; 101; 102]
                [ mkDevice 100 0 "" "Tesla K40m" "GPU-0";
                  mkDevice 101 1 "" "Tesla K40m" "GPU-0";
                  mkDevice 102 2 "" "Tesla K40m" "GPU-0" ] s4).
  { apply (Constructs_cons (layer healthy) s1 100 _ s2); [vm_compute; reflexivity|].
    apply (Constructs_cons (layer healthy) s2 101 _ s3); [vm_compute; reflexivity|].
    apply (Constructs_cons (layer healthy) s3 102 _ s4); [vm_compute; reflexivity|].
    apply Constructs_nil. }
  destruct (X13_GetAllGPUs_one_device_per_handle (layer healthy) (start healthy)
              [100; 101; 102] s1 _ s4 ltac:(vm_compute; reflexivity) H)
    as (Heq & Hmap & _).
  split; [now rewrite Heq | exact Hmap].
Defined.

(** X14 on the [nameless101] library: one populated device, a count of 3. *)
Lemma X14_witness :
  let ds := [mkDevice 100 0 "" "Tesla K40m" "GPU-0"] in
  GetAllGPUs (layer nameless101) (start nameless101)
  = (Returned (ds, None), snd (GetAllGPUs (layer nameless101) (start nameless101)))
  /\ Forall resolved ds
  /\ Z.of_nat (length ds) <= C_uint 3.
Proof.
  cbv zeta.
  assert (H : GetAllGPUs (layer nameless101) (start nameless101)
              = (Returned ([mkDevice 100 0 "" "Tesla K40m" "GPU-0"], None),
                 snd (GetAllGPUs (layer nameless101) (start nameless101))))
    by (vm_compute; reflexivity).
  split; [exact H|].
  destruct (X14_GetAllGPUs_devices_are_populated (layer nameless101) (start nameless101)
              _ _ _ H)
    as (Hres & Hlen & _).
  split; [exact Hres | exact Hlen].
Defined.

(** X15 on the [empty_host] library: a count of 0 and "No devices found". *)
Lemma X15_witness :
  GetAllGPUs (layer empty_host) (start empty_host)
  = (Returned ([], errors_New "No devices found"),
     snd (GetAllGPUs (layer empty_host) (start empty_host)))
  /\ C_uint (snd (fst (native_GetCount (layer empty_host)
                         (world (start empty_host))))) = 0.
Proof.
  assert (H : GetAllGPUs (layer empty_host) (start empty_host)
              = (Returned ([], errors_New "No devices found"),
                 snd (GetAllGPUs (layer empty_host) (start empty_host))))
    by (vm_compute; reflexivity).
  split; [exact H|].
  exact (proj1 (proj2 (X15_GetAllGPUs_errors_are_closed (layer empty_host)
                         (start empty_host) _ _ _ H))
               eq_refl).
Defined.

(** X17 on the [healthy] library, whose answers do not depend on the
    world: the accessors of the device built from handle 101 are asked in
    a later state. *)
Lemma X17_witness :
  let d := mkDevice 101 1 "" "Tesla K40m" "GPU-0" in
  let t := mkSt (40%nat : World (layer healthy)) [] in
  fst (UUID (layer healthy) d t) = Returned ("GPU-0", None)
  /\ fst (Name (layer healthy) d t) = Returned ("Tesla K40m", None)
  /\ fst (Index (layer healthy) d t) = Returned (1, None).
Proof.
  cbv zeta.
  apply (X17_accessors_agree_with_cache_when_stable (layer healthy) 101 (start healthy)
           (mkDevice 101 1 "" "Tesla K40m" "GPU-0")
           (snd (NewDevice (layer healthy) 101 (start healthy)))).
  - split; intros; reflexivity.
  - vm_compute; reflexivity.
Defined.
